(** * Todo service (pkg/api/v1/todo-service.go): request translation and
    validation layer.

    The five handlers of [todoServiceServer] are embedded as functions over an
    explicit world: the [todo] table behind [database/sql], the conditions
    under which the driver reports an error, and the trace of effects on the
    connection pool. A handler either falls through to its next statement,
    returns its Go pair [(response, error)], or panics. *)

From Stdlib Require Import String Ascii ZArith List Bool Lia Permutation.
From Stdlib Require Import DecimalString.
Import ListNotations.
Local Open Scope string_scope.
Local Open Scope Z_scope.

(** ** fmt.Sprintf, for the verbs the service uses *)

(** Operands of a formatting call: the service formats [int64] ids and
    strings. *)
Inductive Arg : Type :=
| ArgInt64 (z : Z)
| ArgString (s : string).

(** [strconv.FormatInt(z, 10)]. *)
Definition itoa (z : Z) : string := NilZero.string_of_int (Z.to_int z).

Definition type_and_value (a : Arg) : string :=
  match a with
  | ArgInt64 z => "int64=" ++ itoa z
  | ArgString s => "string=" ++ s
  end.

(** One verb applied to one operand. [%d] prints an integer, [%s] a string,
    [%v] either; a verb that does not apply to its operand is printed as
    [%!verb(type=value)]. Verbs other than [d], [s] and [v] are outside the
    fragment and are rendered as not applying. *)
Definition format_verb (verb : ascii) (a : Arg) : string :=
  let bad := "%!" ++ String verb ("(" ++ type_and_value a ++ ")") in
  if Ascii.eqb verb "d" then
    match a with ArgInt64 z => itoa z | ArgString _ => bad end
  else if Ascii.eqb verb "s" then
    match a with ArgString s => s | ArgInt64 _ => bad end
  else if Ascii.eqb verb "v" then
    match a with ArgInt64 z => itoa z | ArgString s => s end
  else bad.

Fixpoint join_extra (args : list Arg) : string :=
  match args with
  | [] => ""
  | [a] => type_and_value a
  | a :: rest => type_and_value a ++ ", " ++ join_extra rest
  end.

(** Operands left over once the format is consumed. *)
Definition extra_args (args : list Arg) : string :=
  match args with
  | [] => ""
  | _ => "%!(EXTRA " ++ join_extra args ++ ")"
  end.

(** [fmt.Sprintf(format, args...)]. A verb with no operand left prints
    [%!verb(MISSING)]. *)
Fixpoint Sprintf (format : string) (args : list Arg) : string :=
  match format with
  | EmptyString => extra_args args
  | String c rest =>
      if Ascii.eqb c "%" then
        match rest with
        | EmptyString => "%!(NOVERB)" ++ extra_args args
        | String verb rest' =>
            if Ascii.eqb verb "%" then String "%" (Sprintf rest' args)
            else
              match args with
              | [] => "%!" ++ String verb ("(MISSING)" ++ Sprintf rest' [])
              | a :: args' => format_verb verb a ++ Sprintf rest' args'
              end
        end
      else String c (Sprintf rest args)
  end.

(** [strings.Contains(s, sub)]. *)
Fixpoint Contains (s sub : string) : bool :=
  String.prefix sub s
  || match s with
     | EmptyString => false
     | String _ rest => Contains rest sub
     end.

(** ** google.golang.org/grpc: codes and status *)

Inductive Code : Type :=
| OK | Canceled | Unknown | InvalidArgument | DeadlineExceeded | NotFound
| AlreadyExists | PermissionDenied | ResourceExhausted | FailedPrecondition
| Aborted | OutOfRange | Unimplemented | Internal | Unavailable | DataLoss
| Unauthenticated.

(** The error a handler returns: a status with a code and a message. *)
Record Status : Type := { code : Code; message : string }.

Definition status_Error (c : Code) (msg : string) : Status :=
  {| code := c; message := msg |}.

Definition status_Errorf (c : Code) (format : string) (args : list Arg) : Status :=
  status_Error c (Sprintf format args).

(** ** time.Time and the protobuf timestamp *)

(** An instant, as [t.Unix()] and [t.Nanosecond()] read it. *)
Record Time : Type := { unix : Z; nanosecond : Z }.

Definition Time_eqb (a b : Time) : bool :=
  (unix a =? unix b) && (nanosecond a =? nanosecond b).

(** [time.Unix(sec, nsec)]: nanoseconds outside [0, 1e9) are carried into the
    seconds (Go's division truncates towards zero). *)
Definition time_Unix (sec nsec : Z) : Time :=
  if (nsec <? 0) || (1000000000 <=? nsec) then
    let n := Z.quot nsec 1000000000 in
    let sec := sec + n in
    let nsec := nsec - n * 1000000000 in
    if nsec <? 0 then {| unix := sec - 1; nanosecond := nsec + 1000000000 |}
    else {| unix := sec; nanosecond := nsec |}
  else {| unix := sec; nanosecond := nsec |}.

(** The zero [time.Time], January 1 of year 1, 00:00:00 UTC. *)
Definition zero_Time : Time := {| unix := -62135596800; nanosecond := 0 |}.

(** [timestamp.Timestamp]: [Seconds] is an int64, [Nanos] an int32. *)
Module Timestamp.
Record t : Type := { Seconds : Z; Nanos : Z }.
End Timestamp.

(** 0001-01-01T00:00:00Z and 10000-01-01T00:00:00Z in Unix seconds. *)
Definition minValidSeconds : Z := -62135596800.
Definition maxValidSeconds : Z := 253402300800.

(** ** The wire messages

    The fields are those of api/swagger/v1/todo-service.swagger.json, under
    the names the handlers use. The generated Go types hold a nested message
    (the task of a request, the reminder of a task) by pointer, hence the
    options: [None] is nil. *)

Module Todo.
Record t : Type :=
  { Id : Z; Title : string; Description : string; Reminder : option Timestamp.t }.
End Todo.

Module CreateRequest.
Record t : Type := { Api : string; Todo : option Todo.t }.
End CreateRequest.

Module CreateResponse.
Record t : Type := { Api : string; Id : Z }.
End CreateResponse.

Module ReadRequest.
Record t : Type := { Api : string; Id : Z }.
End ReadRequest.

Module ReadResponse.
Record t : Type := { Api : string; Todo : option Todo.t }.
End ReadResponse.

Module UpdateRequest.
Record t : Type := { Api : string; Todo : option Todo.t }.
End UpdateRequest.

Module UpdateResponse.
Record t : Type := { Api : string; Updated : Z }.
End UpdateResponse.

Module DeleteRequest.
Record t : Type := { Api : string; Id : Z }.
End DeleteRequest.

Module DeleteResponse.
Record t : Type := { Api : string; Deleted : Z }.
End DeleteResponse.

Module ReadAllRequest.
Record t : Type := { Api : string }.
End ReadAllRequest.

Module ReadAllResponse.
Record t : Type := { Api : string; Todos : list Todo.t }.
End ReadAllResponse.

(** ** The [todo] table (schema: id bigint AUTO_INCREMENT PRIMARY KEY,
    title varchar NULL, description varchar NULL, reminder timestamp NULL) *)

Inductive Column : Type := ColId | ColTitle | ColDescription | ColReminder.

(** A value handed to or by the driver; [VNull] is SQL NULL. *)
Inductive Value : Type :=
| VNull
| VInt64 (z : Z)
| VString (s : string)
| VTime (t : Time).

Record Row : Type :=
  { row_id : Z;
    row_title : option string;
    row_description : option string;
    row_reminder : option Time }.

(** The statements of the service, with [?] placeholders bound by position. *)
Inductive ExecStatement : Type :=
| InsertInto (cols : list Column)
    (* INSERT INTO todo(cols) VALUES (?, ...) *)
| UpdateSetWhere (cols : list Column) (key : Column)
    (* UPDATE todo SET col = ?, ... WHERE key = ? *)
| DeleteWhere (key : Column).
    (* DELETE FROM todo WHERE key = ? *)

Inductive QueryStatement : Type :=
| SelectWhere (cols : list Column) (key : Column)
    (* SELECT cols FROM todo WHERE key = ? *)
| SelectAll (cols : list Column).
    (* SELECT cols FROM todo *)

(** [sql.Result]: what [LastInsertId] and [RowsAffected] report, and the
    error they report it with, if any. *)
Record Result : Type :=
  { insert_id : Z; affected : Z; result_err : option string }.

(** [sql.Rows]: the row under the cursor, the rows still to come, and the
    error that ended the iteration, if any. *)
Record Rows : Type :=
  { current : option (list Value);
    pending : list (list Value);
    rows_err : option string }.

(** [sql.Conn]: a connection taken from the pool. *)
Inductive Conn : Type := PoolConn.

(** The conditions under which the pool and the driver report an error: each
    field, when set, is the text of the error the call returns. The cursor
    condition also says after how many rows the iteration breaks. *)
Record Faults : Type :=
  { conn_fault : option string;
    exec_fault : option string;
    result_fault : option string;
    query_fault : option string;
    cursor_fault : option (nat * string) }.

Definition no_faults : Faults :=
  {| conn_fault := None; exec_fault := None; result_fault := None;
     query_fault := None; cursor_fault := None |}.

(** Effects on the pool and the table, in the order they happen. *)
Inductive Event : Type :=
| ConnOpened
| ConnClosed
| RowsClosed
| Executed (stmt : ExecStatement) (args : list Value)
| Queried (stmt : QueryStatement) (args : list Value).

Record World : Type :=
  { table : list Row;
    auto_increment : Z;
    faults : Faults;
    events : list Event }.

Definition log (e : Event) (w : World) : World :=
  {| table := table w; auto_increment := auto_increment w;
     faults := faults w; events := (events w ++ [e])%list |}.

(** ** Control flow of a handler *)

(** A statement of a handler with result type [R] falls through with a value,
    returns the pair [(resp, err)] (either may be nil), or panics. *)
Inductive Flow (R A : Type) : Type :=
| Next (a : A)
| Return (resp : option R) (err : option Status)
| Panic (reason : string).

Arguments Next {R A} a.
Arguments Return {R A} resp err.
Arguments Panic {R A} reason.

Definition Handler (R A : Type) : Type := World -> Flow R A * World.

Definition bind {R A B : Type} (m : Handler R A) (k : A -> Handler R B) : Handler R B :=
  fun w =>
    match m w with
    | (Next a, w') => k a w'
    | (Return resp err, w') => (Return resp err, w')
    | (Panic reason, w') => (Panic reason, w')
    end.

(** [return resp, err]. *)
Definition ret {R A : Type} (resp : option R) (err : option Status) : Handler R A :=
  fun w => (Return resp err, w).

(** Statements that touch neither the pool nor the driver. *)
Definition step {R A : Type} (f : Flow R A) : Handler R A := fun w => (f, w).

(** A call into the pool or the driver. *)
Definition call {R A : Type} (f : World -> A * World) : Handler R A :=
  fun w => let (a, w') := f w in (Next a, w').

(** The panic of the Go runtime on the use of a nil pointer or interface. *)
Definition nil_dereference : string :=
  "runtime error: invalid memory address or nil pointer dereference".

(** Use of a pointer or interface value: nil panics. *)
Definition deref {R A : Type} (p : option A) : Handler R A :=
  fun w =>
    match p with
    | Some a => (Next a, w)
    | None => (Panic nil_dereference, w)
    end.

(** [defer cleanup]; the rest of the function is [body]. The cleanup runs on
    every way out, a panic included. *)
Definition defer {R A : Type} (cleanup : World -> World) (body : Handler R A) : Handler R A :=
  fun w => let (f, w') := body w in (f, cleanup w').

Declare Scope handler_scope.
Delimit Scope handler_scope with handler.
Notation "x <- m ;; k" := (bind m (fun x => k))
  (at level 61, m at next level, right associativity) : handler_scope.
Notation "' p <- m ;; k" := (bind m (fun x => match x with p => k end))
  (at level 61, p pattern, m at next level, right associativity) : handler_scope.
Local Open Scope handler_scope.

(** Example precisions of a timestamp column: every digit kept, or whole
    seconds only. *)
Definition exact_precision (t : Time) : Time := t.

Definition whole_seconds (t : Time) : Time :=
  {| unix := unix t; nanosecond := 0 |}.

(** A plain rendering of a timestamp message. *)
Definition plain_text (ts : Timestamp.t) : string :=
  "seconds:" ++ itoa (Timestamp.Seconds ts) ++ " nanos:" ++ itoa (Timestamp.Nanos ts).

(** A plain rendering of a failed scan of column [i]. *)
Definition plain_scan_error (i : nat) (v : Value) : string :=
  "sql: Scan error on column index " ++ itoa (Z.of_nat i).

(** ** Sample requests and worlds *)

Definition new_year_2024 : Timestamp.t :=
  {| Timestamp.Seconds := 1704067200; Timestamp.Nanos := 0 |}.

Definition buy_milk : Todo.t :=
  {| Todo.Id := 5; Todo.Title := "buy milk"; Todo.Description := "2%";
     Todo.Reminder := Some new_year_2024 |}.

(** A task whose reminder has a nanosecond count out of range. *)
Definition bad_reminder : Todo.t :=
  {| Todo.Id := 1; Todo.Title := "buy milk"; Todo.Description := "2%";
     Todo.Reminder := Some {| Timestamp.Seconds := 1704067200;
                              Timestamp.Nanos := 1000000000 |} |}.

Definition milk_row (id : Z) : Row :=
  {| row_id := id; row_title := Some "buy milk"; row_description := Some "2%";
     row_reminder := Some {| unix := 1704067200; nanosecond := 0 |} |}.

Definition empty_world : World :=
  {| table := []; auto_increment := 1; faults := no_faults; events := [] |}.

Definition one_row_world : World :=
  {| table := [milk_row 1]; auto_increment := 2; faults := no_faults; events := [] |}.

(** A table holding the id 7 twice. *)
Definition duplicate_world : World :=
  {| table := [milk_row 7; milk_row 7]; auto_increment := 8;
     faults := no_faults; events := [] |}.

(** A table with a row whose reminder is NULL. *)
Definition null_reminder_world : World :=
  {| table := [milk_row 1;
               {| row_id := 2; row_title := Some "call home";
                  row_description := Some ""; row_reminder := None |}];
     auto_increment := 3; faults := no_faults; events := [] |}.

(** The pool gives no connection. *)
Definition pool_down_world : World :=
  {| table := [milk_row 1]; auto_increment := 2;
     faults := {| conn_fault := Some "dial tcp 127.0.0.1:3306: connect: connection refused";
                  exec_fault := None; result_fault := None;
                  query_fault := None; cursor_fault := None |};
     events := [] |}.

(** The driver reports an error for every write statement. *)
Definition write_failing_world : World :=
  {| table := [milk_row 1]; auto_increment := 2;
     faults := {| conn_fault := None;
                  exec_fault := Some "Error 1205: Lock wait timeout exceeded";
                  result_fault := None; query_fault := None; cursor_fault := None |};
     events := [] |}.

(** ** pkg/logger/logger.go *)

(** The levels of zapcore. *)
Definition DebugLevel : Z := -1.
Definition InfoLevel : Z := 0.
Definition WarnLevel : Z := 1.
Definition ErrorLevel : Z := 2.
Definition DPanicLevel : Z := 3.
Definition PanicLevel : Z := 4.
Definition FatalLevel : Z := 5.

(** [zapcore.Level(lvl)]: a level is an int8, so the conversion of an int
    keeps its low eight bits, signed. *)
Definition to_Level (lvl : Z) : Z := (lvl + 128) mod 256 - 128.

(** A log entry, as far as routing goes. *)
Record Entry : Type := { entry_level : Z; entry_message : string }.

(** The two enablers [Init] defines; they are given the same body. *)
Definition highPriority (globalLevel lvl : Z) : bool :=
  (globalLevel <=? lvl) && (lvl <? ErrorLevel).

Definition lowPriority (globalLevel lvl : Z) : bool :=
  (globalLevel <=? lvl) && (lvl <? ErrorLevel).

(** The logger [Init] builds: a tee of two cores, standard error under
    [highPriority] and standard output under [lowPriority], with the custom
    time encoder or zap's own. *)
Record Logger : Type := { globalLevel : Z; custom_time : bool }.

(** The package variables, and the two streams. *)
Record LoggerState : Type :=
  { Log : option Logger;
    customTimeFormat : string;
    onceInit : bool;
    std_log_redirected : bool;
    Stdout : list Entry;
    Stderr : list Entry }.

(** A core writes the entries its enabler lets through. *)
Definition core_write (enabled : bool) (e : Entry) (out : list Entry) : list Entry :=
  if enabled then (out ++ [e])%list else out.

(** An entry handed to the logger goes to each core of the tee. *)
Definition Logger_write (l : Logger) (e : Entry) (s : LoggerState) : LoggerState :=
  {| Log := Log s; customTimeFormat := customTimeFormat s; onceInit := onceInit s;
     std_log_redirected := std_log_redirected s;
     Stdout := core_write (lowPriority (globalLevel l) (entry_level e)) e (Stdout s);
     Stderr := core_write (highPriority (globalLevel l) (entry_level e)) e (Stderr s) |}.

(** [Init(lvl, timeFormat)]: the body runs under [onceInit.Do]; [err] is
    declared, never assigned, and returned. *)
Definition Init (lvl : Z) (timeFormat : string) (s : LoggerState)
    : option string * LoggerState :=
  let err : option string := None in
  if onceInit s then (err, s)
  else
    let useCustomTimeFormat := (0 <? String.length timeFormat)%nat in
    let l := {| globalLevel := to_Level lvl; custom_time := useCustomTimeFormat |} in
    let s1 :=
      {| Log := Some l;
         customTimeFormat := if useCustomTimeFormat then timeFormat else customTimeFormat s;
         onceInit := true;
         std_log_redirected := true;
         Stdout := Stdout s; Stderr := Stderr s |} in
    if negb useCustomTimeFormat then
      (err, Logger_write l
              {| entry_level := WarnLevel;
                 entry_message := "Time format for logger is not provided - use zap default" |}
              s1)
    else (err, s1).

(** The package before any call of [Init]. *)
Definition fresh_logger : LoggerState :=
  {| Log := None; customTimeFormat := ""; onceInit := false;
     std_log_redirected := false; Stdout := []; Stderr := [] |}.

(** ** pkg/cmd/server/server.go *)

(** Config is configuration for Server. *)
Module Config.
Record t : Type :=
  { GRPCPort : string;
    HTTPPort : string;
    DatastoreDBHost : string;
    DatastoreDBUser : string;
    DatastoreDBPassword : string;
    DatastoreDBSchema : string;
    LogLevel : Z;
    LogTimeFormat : string }.
End Config.

(** What starting the server does outside this function. *)
Inductive StartEvent : Type :=
| DBOpened (dsn : string)
| GatewayLaunched (grpcPort httpPort : string)
| GRPCServed (port : string)
| DBClosed.

(** The process: the logger package, the error [sql.Open] reports for a data
    source name, if any, what [grpc.RunServer] returns once it stops, and the
    trace of what was started. *)
Record Host : Type :=
  { host_logger : LoggerState;
    open_fault : string -> option string;
    grpc_result : option string;
    started : list StartEvent }.

(** [RunServer], from the parsed flags on. The gateway runs in a goroutine of
    its own and the gRPC server blocks until it stops; both are outside this
    function and appear as events. [db.Close] is deferred. *)
Definition RunServer (cfg : Config.t) (h : Host) : option string * Host :=
  if (String.length (Config.GRPCPort cfg) =? 0)%nat then
    (Some (Sprintf "invalid TCP port for gRPC server: '%s'" [ArgString (Config.GRPCPort cfg)]),
     h)
  else if (String.length (Config.HTTPPort cfg) =? 0)%nat then
    (Some (Sprintf "invalid TCP port for HTTP gateway: '%s'" [ArgString (Config.HTTPPort cfg)]),
     h)
  else
    let '(err, lg) := Init (Config.LogLevel cfg) (Config.LogTimeFormat cfg) (host_logger h) in
    let h1 := {| host_logger := lg; open_fault := open_fault h;
                 grpc_result := grpc_result h; started := started h |} in
    match err with
    | Some err => (Some (Sprintf "Failed to initialize logger: %v" [ArgString err]), h1)
    | None =>
        let param := "parseTime=true" in
        let dsn :=
          Sprintf "%s:%s@tcp(%s)/%s?%s"
            [ArgString (Config.DatastoreDBUser cfg);
             ArgString (Config.DatastoreDBPassword cfg);
             ArgString (Config.DatastoreDBHost cfg);
             ArgString (Config.DatastoreDBSchema cfg);
             ArgString param] in
        match open_fault h1 dsn with
        | Some err => (Some (Sprintf "Failed to open database: %v" [ArgString err]), h1)
        | None =>
            (grpc_result h1,
             {| host_logger := lg; open_fault := open_fault h;
                grpc_result := grpc_result h;
                started := (started h
                            ++ [DBOpened dsn;
                                GatewayLaunched (Config.GRPCPort cfg) (Config.HTTPPort cfg);
                                GRPCServed (Config.GRPCPort cfg);
                                DBClosed])%list |})
        end
    end.

(** The flags of the Makefile's [runapi]. *)
Definition runapi_config : Config.t :=
  {| Config.GRPCPort := "9090"; Config.HTTPPort := "8080";
     Config.DatastoreDBHost := "localhost:3306"; Config.DatastoreDBUser := "root";
     Config.DatastoreDBPassword := "password"; Config.DatastoreDBSchema := "todo";
     Config.LogLevel := -1;
     Config.LogTimeFormat := "2006-01-02T15:04:05.999999999Z07:00" |}.

(** A process in which the data source opens and the server stops cleanly. *)
Definition quiet_host : Host :=
  {| host_logger := fresh_logger; open_fault := fun _ => None;
     grpc_result := None; started := [] |}.

(** The driver executes statements but fails to report their results. *)
Definition result_failing_world : World :=
  {| table := [milk_row 1]; auto_increment := 2;
     faults := {| conn_fault := None; exec_fault := None;
                  result_fault := Some "driver: bad connection";
                  query_fault := None; cursor_fault := None |};
     events := [] |}.

(** The task of [milk_row 1], retitled. *)
Definition oat_milk : Todo.t :=
  {| Todo.Id := 1; Todo.Title := "buy oat milk"; Todo.Description := "1l";
     Todo.Reminder := Some new_year_2024 |}.

(** The cursor of a query breaks after its first row. *)
Definition broken_cursor_world : World :=
  {| table := [milk_row 1]; auto_increment := 2;
     faults := {| conn_fault := None; exec_fault := None; result_fault := None;
                  query_fault := None; cursor_fault := Some (1%nat, "unexpected EOF") |};
     events := [] |}.

Section Service.

(** What the storage engine keeps of a timestamp it is given (the precision of
    the [reminder] column). *)
Variable store_time : Time -> Time.

(** The text [%v] prints for a timestamp message in the errors of [ptypes]. *)
Variable proto_text : Timestamp.t -> string.

(** The text of the error [rows.Scan] reports for column [i] holding [v]. *)
Variable scan_error_text : nat -> Value -> string.

(** ** github.com/golang/protobuf/ptypes

    The three functions of the library the handlers rely on, after its
    timestamp.go. *)

(** [validateTimestamp]: nil, seconds before year 1 or from year 10000 on, and
    nanoseconds outside [0, 1e9) are errors. *)
Definition validateTimestamp (ts : option Timestamp.t) : option string :=
  match ts with
  | None => Some "timestamp: nil Timestamp"
  | Some ts =>
      if Timestamp.Seconds ts <? minValidSeconds then
        Some ("timestamp: " ++ proto_text ts ++ " before 0001-01-01")
      else if maxValidSeconds <=? Timestamp.Seconds ts then
        Some ("timestamp: " ++ proto_text ts ++ " after 10000-01-01")
      else if (Timestamp.Nanos ts <? 0) || (1000000000 <=? Timestamp.Nanos ts) then
        Some ("timestamp: " ++ proto_text ts ++ ": nanos not in range [0, 1e9)")
      else None
  end.

(** [ptypes.Timestamp(ts)]: the instant, and the validation error if any. *)
Definition ptypes_Timestamp (ts : option Timestamp.t) : Time * option string :=
  let t :=
    match ts with
    | None => time_Unix 0 0
    | Some ts => time_Unix (Timestamp.Seconds ts) (Timestamp.Nanos ts)
    end in
  (t, validateTimestamp ts).

(** [ptypes.TimestampProto(t)]. *)
Definition ptypes_TimestampProto (t : Time) : option Timestamp.t * option string :=
  let ts := {| Timestamp.Seconds := unix t; Timestamp.Nanos := nanosecond t |} in
  match validateTimestamp (Some ts) with
  | Some err => (None, Some err)
  | None => (Some ts, None)
  end.

(** ** The storage engine behind database/sql

    The engine is outside the service; it is modelled as far as the five
    statements of the service and the schema of the table go. *)

Definition option_eqb {A : Type} (eqb : A -> A -> bool) (a b : option A) : bool :=
  match a, b with
  | Some x, Some y => eqb x y
  | None, None => true
  | _, _ => false
  end.

Definition Row_eqb (a b : Row) : bool :=
  (row_id a =? row_id b)
  && option_eqb String.eqb (row_title a) (row_title b)
  && option_eqb String.eqb (row_description a) (row_description b)
  && option_eqb Time_eqb (row_reminder a) (row_reminder b).

Definition Column_eqb (a b : Column) : bool :=
  match a, b with
  | ColId, ColId | ColTitle, ColTitle
  | ColDescription, ColDescription | ColReminder, ColReminder => true
  | _, _ => false
  end.

(** The value a row holds in a column. *)
Definition column (c : Column) (r : Row) : Value :=
  match c with
  | ColId => VInt64 (row_id r)
  | ColTitle => match row_title r with Some s => VString s | None => VNull end
  | ColDescription => match row_description r with Some s => VString s | None => VNull end
  | ColReminder => match row_reminder r with Some t => VTime t | None => VNull end
  end.

(** SQL comparison [a = b]: NULL equals nothing. *)
Definition Value_eqb (a b : Value) : bool :=
  match a, b with
  | VInt64 x, VInt64 y => x =? y
  | VString x, VString y => String.eqb x y
  | VTime x, VTime y => Time_eqb x y
  | _, _ => false
  end.

(** [WHERE key = v]. *)
Definition matches (key : Column) (v : Value) (r : Row) : bool :=
  Value_eqb (column key r) v.

(** [SET c = v] on one row; a value of the wrong type for the column is
    refused. The id is NOT NULL; a timestamp is kept at the column's
    precision. *)
Definition assign (c : Column) (v : Value) (r : Row) : option Row :=
  match c, v with
  | ColId, VInt64 z =>
      Some {| row_id := z; row_title := row_title r;
              row_description := row_description r; row_reminder := row_reminder r |}
  | ColTitle, VString s =>
      Some {| row_id := row_id r; row_title := Some s;
              row_description := row_description r; row_reminder := row_reminder r |}
  | ColTitle, VNull =>
      Some {| row_id := row_id r; row_title := None;
              row_description := row_description r; row_reminder := row_reminder r |}
  | ColDescription, VString s =>
      Some {| row_id := row_id r; row_title := row_title r;
              row_description := Some s; row_reminder := row_reminder r |}
  | ColDescription, VNull =>
      Some {| row_id := row_id r; row_title := row_title r;
              row_description := None; row_reminder := row_reminder r |}
  | ColReminder, VTime t =>
      Some {| row_id := row_id r; row_title := row_title r;
              row_description := row_description r; row_reminder := Some (store_time t) |}
  | ColReminder, VNull =>
      Some {| row_id := row_id r; row_title := row_title r;
              row_description := row_description r; row_reminder := None |}
  | _, _ => None
  end.

(** Columns and values paired by position; the counts must agree. *)
Fixpoint assign_all (cols : list Column) (vals : list Value) (r : Row) : option Row :=
  match cols, vals with
  | [], [] => Some r
  | c :: cols', v :: vals' =>
      match assign c v r with
      | Some r' => assign_all cols' vals' r'
      | None => None
      end
  | _, _ => None
  end.

Definition has_id (id : Z) (tbl : list Row) : bool :=
  existsb (fun r => row_id r =? id) tbl.

Fixpoint unique_ids (tbl : list Row) : bool :=
  match tbl with
  | [] => true
  | r :: rest => negb (has_id (row_id r) rest) && unique_ids rest
  end.

Definition names_id (cols : list Column) : bool := existsb (Column_eqb ColId) cols.

(** UPDATE over the table: the rows matching the key get the new values; the
    count is of the rows whose content changed (MySQL's affected-rows count
    when the client does not ask for found rows). *)
Fixpoint update_rows (cols : list Column) (vals : list Value) (key : Column) (kv : Value)
    (tbl : list Row) : option (list Row * Z) :=
  match tbl with
  | [] => Some ([], 0)
  | r :: rest =>
      match update_rows cols vals key kv rest with
      | None => None
      | Some (rest', n) =>
          if matches key kv r then
            match assign_all cols vals r with
            | None => None
            | Some r' => Some (r' :: rest', if Row_eqb r r' then n else n + 1)
            end
          else Some (r :: rest', n)
      end
  end.

(** The table and its AUTO_INCREMENT counter. *)
Definition Store : Type := (list Row * Z)%type.

(** One write statement on the store: the new store and the statement's
    insert id and affected-row count, or the engine's error. *)
Definition engine_exec (stmt : ExecStatement) (args : list Value) (st : Store)
    : string + (Store * (Z * Z)) :=
  let (tbl, next) := st in
  match stmt with
  | InsertInto cols =>
      let blank := {| row_id := next; row_title := None;
                      row_description := None; row_reminder := None |} in
      match assign_all cols args blank with
      | None => inl "Error 1136: column count or type does not match the values"
      | Some r =>
          if has_id (row_id r) tbl then inl "Error 1062: duplicate entry for key PRIMARY"
          else inr (((tbl ++ [r])%list, Z.max next (row_id r + 1)),
                    (if names_id cols then 0 else row_id r, 1))
      end
  | UpdateSetWhere cols key =>
      let n := Datatypes.length cols in
      match skipn n args with
      | [kv] =>
          match update_rows cols (firstn n args) key kv tbl with
          | None => inl "Error 1366: incorrect value for column"
          | Some (tbl', changed) =>
              if names_id cols && negb (unique_ids tbl')
              then inl "Error 1062: duplicate entry for key PRIMARY"
              else inr ((tbl', next), (0, changed))
          end
      | _ => inl "sql: wrong number of arguments"
      end
  | DeleteWhere key =>
      match args with
      | [kv] =>
          let tbl' := filter (fun r => negb (matches key kv r)) tbl in
          inr ((tbl', next), (0, Z.of_nat (Datatypes.length tbl) - Z.of_nat (Datatypes.length tbl')))
      | _ => inl "sql: wrong number of arguments"
      end
  end.

(** One query on the table: the selected columns of the selected rows. *)
Definition engine_query (stmt : QueryStatement) (args : list Value) (tbl : list Row)
    : string + list (list Value) :=
  match stmt, args with
  | SelectWhere cols key, [kv] =>
      inr (map (fun r => map (fun c => column c r) cols) (filter (matches key kv) tbl))
  | SelectAll cols, [] =>
      inr (map (fun r => map (fun c => column c r) cols) tbl)
  | _, _ => inl "sql: wrong number of arguments"
  end.

(** ** database/sql, as the handlers use it *)

(** [db.Conn(ctx)]. *)
Definition db_Conn (w : World) : (option Conn * option string) * World :=
  match conn_fault (faults w) with
  | Some err => ((None, Some err), w)
  | None => ((Some PoolConn, None), log ConnOpened w)
  end.

(** [c.Close()]. *)
Definition Conn_Close (w : World) : World := log ConnClosed w.

(** [c.ExecContext(ctx, query, args...)]: on an error the result is nil and
    the table is as it was. *)
Definition ExecContext (c : Conn) (stmt : ExecStatement) (args : list Value) (w : World)
    : (option Result * option string) * World :=
  match exec_fault (faults w) with
  | Some err => ((None, Some err), w)
  | None =>
      match engine_exec stmt args (table w, auto_increment w) with
      | inl err => ((None, Some err), w)
      | inr ((tbl', next'), (id, n)) =>
          ((Some {| insert_id := id; affected := n;
                    result_err := result_fault (faults w) |}, None),
           {| table := tbl'; auto_increment := next'; faults := faults w;
              events := (events w ++ [Executed stmt args])%list |})
      end
  end.

(** [res.LastInsertId()] and [res.RowsAffected()]. *)
Definition LastInsertId (res : Result) : Z * option string :=
  match result_err res with
  | Some err => (0, Some err)
  | None => (insert_id res, None)
  end.

Definition RowsAffected (res : Result) : Z * option string :=
  match result_err res with
  | Some err => (0, Some err)
  | None => (affected res, None)
  end.

(** [c.QueryContext(ctx, query, args...)]: a cursor before the first row. A
    cursor that breaks yields the rows up to the break and then stops with
    its error. *)
Definition QueryContext (c : Conn) (stmt : QueryStatement) (args : list Value) (w : World)
    : (option Rows * option string) * World :=
  match query_fault (faults w) with
  | Some err => ((None, Some err), w)
  | None =>
      match engine_query stmt args (table w) with
      | inl err => ((None, Some err), w)
      | inr rows =>
          let cursor :=
            match cursor_fault (faults w) with
            | Some (n, err) =>
                {| current := None; pending := firstn n rows; rows_err := Some err |}
            | None => {| current := None; pending := rows; rows_err := None |}
            end in
          ((Some cursor, None), log (Queried stmt args) w)
      end
  end.

(** [rows.Next()]: whether there is a row, and the cursor moved onto it. *)
Definition Rows_Next (rows : Rows) : bool * Rows :=
  match pending rows with
  | r :: rest => (true, {| current := Some r; pending := rest; rows_err := rows_err rows |})
  | [] => (false, {| current := None; pending := []; rows_err := rows_err rows |})
  end.

(** [rows.Err()]. *)
Definition Rows_Err (rows : Rows) : option string := rows_err rows.

(** [rows.Close()]. *)
Definition Rows_Close (w : World) : World := log RowsClosed w.

(** Conversion of a column value into a Go destination; NULL converts into
    none of [*int64], [*string] and [*time.Time]. *)
Definition scan_int64 (v : Value) : option Z :=
  match v with VInt64 z => Some z | _ => None end.

Definition scan_string (v : Value) : option string :=
  match v with VString s => Some s | _ => None end.

Definition scan_time (v : Value) : option Time :=
  match v with VTime t => Some t | _ => None end.

(** [rows.Scan(&td.Id, &td.Title, &td.Description, &reminder)]: the four
    destinations are filled from the current row in order; the first column
    that does not convert stops the scan with an error. Destinations not
    reached keep the zero value they had. *)
Definition Rows_Scan (rows : Rows) : (Z * string * string * Time) * option string :=
  let zero := zero_Time in
  match current rows with
  | Some [v0; v1; v2; v3] =>
      match scan_int64 v0 with
      | None => ((0, "", "", zero), Some (scan_error_text 0%nat v0))
      | Some id =>
          match scan_string v1 with
          | None => ((id, "", "", zero), Some (scan_error_text 1%nat v1))
          | Some title =>
              match scan_string v2 with
              | None => ((id, title, "", zero), Some (scan_error_text 2%nat v2))
              | Some description =>
                  match scan_time v3 with
                  | None => ((id, title, description, zero), Some (scan_error_text 3%nat v3))
                  | Some reminder => ((id, title, description, reminder), None)
                  end
              end
          end
      end
  | Some _ => ((0, "", "", zero), Some "sql: expected 4 destination arguments in Scan")
  | None => ((0, "", "", zero), Some "sql: Scan called without calling Next")
  end.

(** ** The service (pkg/api/v1/todo-service.go) *)

(** apiVersion is version of API is provided by server. *)
Definition apiVersion : string := "v1".

Definition todo_columns : list Column := [ColId; ColTitle; ColDescription; ColReminder].

(** [checkAPI]: an empty version means the current one; any other version
    than the current one is not implemented. *)
Definition checkAPI (api : string) : option Status :=
  if (0 <? String.length api)%nat then
    if negb (String.eqb apiVersion api) then
      Some (status_Errorf Unimplemented
              "Unsupported API version: service implements API version '%s', but asked for '%s'"
              [ArgString apiVersion; ArgString api])
    else None
  else None.

(** An [error] that is not a status reaches the client with code Unknown;
    a nil error stays nil. *)
Definition plain_error (err : option string) : option Status :=
  option_map (status_Error Unknown) err.

(** [connect]: a connection from the pool, or an Unknown status. *)
Definition connect (w : World) : (option Conn * option Status) * World :=
  match db_Conn w with
  | ((_, Some err), w') =>
      ((None, Some (status_Error Unknown ("Failed to connect to database -> " ++ err))), w')
  | ((c, None), w') => ((c, None), w')
  end.

(** [Create]: INSERT INTO todo(title, description, reminder) VALUES (?, ?, ?). *)
Definition Create (req : CreateRequest.t) : Handler CreateResponse.t Empty_set :=
  match checkAPI (CreateRequest.Api req) with
  | Some err => ret None (Some err)
  | None =>
  '(c, err) <- call connect ;;
  match err with
  | Some err => ret None (Some err)
  | None =>
  defer Conn_Close (
  todo <- deref (CreateRequest.Todo req) ;;
  let '(reminder, err) := ptypes_Timestamp (Todo.Reminder todo) in
  match err with
  | Some err =>
      ret None (Some (status_Error InvalidArgument
                        ("Reminder field has invalid format -> " ++ err)))
  | None =>
  c <- deref c ;;
  '(res, err) <- call (ExecContext c (InsertInto [ColTitle; ColDescription; ColReminder])
                         [VString (Todo.Title todo); VString (Todo.Description todo);
                          VTime reminder]) ;;
  match err with
  | Some err =>
      ret None (Some (status_Error Unknown ("Failed to insert into todo -> " ++ err)))
  | None =>
  res <- deref res ;;
  let '(id, err) := LastInsertId res in
  match err with
  | Some err =>
      ret None (Some (status_Error Unknown
                        ("failed to retrieve id for created Todo -> " ++ err)))
  | None =>
  ret (Some {| CreateResponse.Api := apiVersion; CreateResponse.Id := id |}) None
  end end end)
  end end.

(** [Read]: SELECT id, title, description, reminder FROM todo where id = ?.
    The not-found message is formatted with no operand for its [%d]; the
    return after the second [rows.Next()] hands back the function's [err],
    which the timestamp conversion has just left nil. *)
Definition Read (req : ReadRequest.t) : Handler ReadResponse.t Empty_set :=
  match checkAPI (ReadRequest.Api req) with
  | Some err => ret None (Some err)
  | None =>
  '(c, err) <- call connect ;;
  match err with
  | Some err => ret None (Some err)
  | None =>
  defer Conn_Close (
  c <- deref c ;;
  '(rows, err) <- call (QueryContext c (SelectWhere todo_columns ColId)
                          [VInt64 (ReadRequest.Id req)]) ;;
  match err with
  | Some err =>
      ret None (Some (status_Error Unknown ("Failed to select from Todo -> " ++ err)))
  | None =>
  defer Rows_Close (
  rows <- deref rows ;;
  let '(more, rows) := Rows_Next rows in
  if negb more then
    match Rows_Err rows with
    | Some err =>
        ret None (Some (status_Error Unknown
                          ("failed to retrieve data from Todo -> " ++ err)))
    | None =>
        ret None (Some (status_Error NotFound (Sprintf "Todo with ID='%d' is not found" [])))
    end
  else
  let '((td_Id, td_Title, td_Description, reminder), scan_err) := Rows_Scan rows in
  match scan_err with
  | Some _ =>
      ret None (Some (status_Error Unknown
                        (Sprintf "Found multiple Todo rows with ID='%d'"
                           [ArgInt64 (ReadRequest.Id req)])))
  | None =>
  let '(td_Reminder, err) := ptypes_TimestampProto reminder in
  match err with
  | Some err =>
      ret None (Some (status_Error Unknown ("reminder field has invalid format -> " ++ err)))
  | None =>
  let '(more, rows) := Rows_Next rows in
  if more then ret None (plain_error err)
  else
  ret (Some {| ReadResponse.Api := apiVersion;
               ReadResponse.Todo :=
                 Some {| Todo.Id := td_Id; Todo.Title := td_Title;
                         Todo.Description := td_Description;
                         Todo.Reminder := td_Reminder |} |}) None
  end end)
  end)
  end end.

(** [Update]: UPDATE todo SET title = ?, description = ?, reminder = ?
    WHERE id = ?. The error of [ExecContext] is overwritten by the one of
    [res.RowsAffected()] without being looked at. *)
Definition Update (req : UpdateRequest.t) : Handler UpdateResponse.t Empty_set :=
  match checkAPI (UpdateRequest.Api req) with
  | Some err => ret None (Some err)
  | None =>
  '(c, err) <- call connect ;;
  match err with
  | Some err => ret None (Some err)
  | None =>
  defer Conn_Close (
  todo <- deref (UpdateRequest.Todo req) ;;
  let '(reminder, err) := ptypes_Timestamp (Todo.Reminder todo) in
  match err with
  | Some err =>
      ret None (Some (status_Error InvalidArgument
                        ("Reminder field has invalid format -> " ++ err)))
  | None =>
  c <- deref c ;;
  '(res, _) <- call (ExecContext c (UpdateSetWhere [ColTitle; ColDescription; ColReminder] ColId)
                       [VString (Todo.Title todo); VString (Todo.Description todo);
                        VTime reminder; VInt64 (Todo.Id todo)]) ;;
  res <- deref res ;;
  let '(rows, err) := RowsAffected res in
  match err with
  | Some err =>
      ret None (Some (status_Error Unknown
                        ("Failed to retrieve rows affected value ->" ++ err)))
  | None =>
  ret (Some {| UpdateResponse.Api := apiVersion; UpdateResponse.Updated := rows |}) None
  end end)
  end end.

(** [Delete]: DELETE FROM todo WHERE id = ?. *)
Definition Delete (req : DeleteRequest.t) : Handler DeleteResponse.t Empty_set :=
  match checkAPI (DeleteRequest.Api req) with
  | Some err => ret None (Some err)
  | None =>
  '(c, err) <- call connect ;;
  match err with
  | Some err => ret None (Some err)
  | None =>
  defer Conn_Close (
  c <- deref c ;;
  '(res, err) <- call (ExecContext c (DeleteWhere ColId) [VInt64 (DeleteRequest.Id req)]) ;;
  match err with
  | Some err => ret None (Some (status_Error Unknown ("Failed to delete Todo ->" ++ err)))
  | None =>
  res <- deref res ;;
  let '(rows, err) := RowsAffected res in
  match err with
  | Some err =>
      ret None (Some (status_Error Unknown
                        ("Failed to retrieve rows affected value -> " ++ err)))
  | None =>
  if rows =? 0 then
    ret None (Some (status_Error NotFound
                      (Sprintf "Todo with ID = '%d' is not found"
                         [ArgInt64 (DeleteRequest.Id req)])))
  else
  ret (Some {| DeleteResponse.Api := apiVersion; DeleteResponse.Deleted := rows |}) None
  end end)
  end end.

(** The loop of [ReadAll], [for rows.Next() { ... }], by recursion on the rows
    still to come: with none left [rows.Next()] is false and the loop ends;
    otherwise the cursor moves onto the next row, which is scanned, its
    timestamp converted, and the task appended. *)
Fixpoint ReadAll_rows (broken : option string) (to_come : list (list Value))
    (todos : list Todo.t) : Flow ReadAllResponse.t (Rows * list Todo.t) :=
  match to_come with
  | [] => Next ({| current := None; pending := []; rows_err := broken |}, todos)
  | r :: rest =>
      let rows := {| current := Some r; pending := rest; rows_err := broken |} in
      let '((td_Id, td_Title, td_Description, reminder), scan_err) := Rows_Scan rows in
      match scan_err with
      | Some err =>
          Return None (Some (status_Error Unknown
                               ("Failed to retrieve field values from Todo -> " ++ err)))
      | None =>
      let '(td_Reminder, err) := ptypes_TimestampProto reminder in
      match err with
      | Some err =>
          Return None (Some (status_Error Unknown
                               ("reminder field has invalid format -> " ++ err)))
      | None =>
      ReadAll_rows broken rest
        (todos ++ [{| Todo.Id := td_Id; Todo.Title := td_Title;
                      Todo.Description := td_Description;
                      Todo.Reminder := td_Reminder |}])%list
      end end
  end.

(** [ReadAll]: SELECT id, title, description, reminder FROM todo. *)
Definition ReadAll (req : ReadAllRequest.t) : Handler ReadAllResponse.t Empty_set :=
  match checkAPI (ReadAllRequest.Api req) with
  | Some err => ret None (Some err)
  | None =>
  '(c, err) <- call connect ;;
  match err with
  | Some err => ret None (Some err)
  | None =>
  defer Conn_Close (
  c <- deref c ;;
  '(rows, err) <- call (QueryContext c (SelectAll todo_columns) []) ;;
  match err with
  | Some err =>
      ret None (Some (status_Error Unknown ("Failed to select from todo -> " ++ err)))
  | None =>
  defer Rows_Close (
  rows <- deref rows ;;
  '(rows, todos) <- step (ReadAll_rows (rows_err rows) (pending rows) []) ;;
  match Rows_Err rows with
  | Some err =>
      ret None (Some (status_Error Unknown ("Failed to retrieve data from Todo" ++ err)))
  | None =>
  ret (Some {| ReadAllResponse.Api := apiVersion; ReadAllResponse.Todos := todos |}) None
  end)
  end)
  end end.

(** ** Vocabulary of the statements below *)

(** The version gate lets a request through: empty or the current version. *)
Definition accepted (api : string) : Prop := api = "" \/ api = apiVersion.

(** The pool hands out a connection. *)
Definition pool_up (w : World) : Prop := conn_fault (faults w) = None.

(** Pool, statements, results and cursors all work. *)
Definition healthy (w : World) : Prop := faults w = no_faults.

(** What a stored row reads back as: every column must scan and the
    timestamp must convert. *)
Definition decode (r : Row) : option Todo.t :=
  match row_title r, row_description r, row_reminder r with
  | Some title, Some description, Some reminder =>
      match ptypes_TimestampProto reminder with
      | (Some ts, None) =>
          Some {| Todo.Id := row_id r; Todo.Title := title;
                  Todo.Description := description; Todo.Reminder := Some ts |}
      | _ => None
      end
  | _, _, _ => None
  end.

(** The whole table read back: every row must decode. *)
Fixpoint decode_all (rows : list Row) : option (list Todo.t) :=
  match rows with
  | [] => Some []
  | r :: rest =>
      match decode r, decode_all rest with
      | Some td, Some tds => Some (td :: tds)
      | _, _ => None
      end
  end.

(** A stored row as the service's SELECT hands it over. *)
Definition row_values (r : Row) : list Value := map (fun c => column c r) todo_columns.

(** The trace a query adds to a world with a connection open, once rows and
    connection are closed again. *)
Definition after_query (stmt : QueryStatement) (args : list Value) (w : World) : World :=
  Conn_Close (Rows_Close (log (Queried stmt args) (log ConnOpened w))).

(** What the claims say Update does to the row it targets: title,
    description and reminder are replaced, the id is kept. *)
Definition overwrite (title description : string) (reminder : Time) (r : Row) : Row :=
  {| row_id := row_id r; row_title := Some title;
     row_description := Some description;
     row_reminder := Some (store_time reminder) |}.

(** The same over a table: the rows with the given id are overwritten, the
    others kept. *)
Definition overwrite_id (id : Z) (title description : string) (reminder : Time)
    (tbl : list Row) : list Row :=
  map (fun r => if row_id r =? id then overwrite title description reminder r else r) tbl.

(** The rows with the given id that an overwrite changes. *)
Definition changed_by (id : Z) (title description : string) (reminder : Time)
    (tbl : list Row) : list Row :=
  filter (fun r => (row_id r =? id)
                   && negb (Row_eqb r (overwrite title description reminder r))) tbl.

(** What Update may do to a stored row [r], giving [r']: keep it, or, when
    its id is the request's, overwrite it; the id stays in both cases. *)
Definition updated_row (req : UpdateRequest.t) (r r' : Row) : Prop :=
  row_id r' = row_id r
  /\ (r' = r
      \/ exists todo,
           UpdateRequest.Todo req = Some todo
           /\ row_id r = Todo.Id todo
           /\ r' = overwrite (Todo.Title todo) (Todo.Description todo)
                     (fst (ptypes_Timestamp (Todo.Reminder todo))) r).

(** The handler returned no response and a status with the given code. *)
Definition fails_with {R A : Type} (c : Code) (f : Flow R A) : Prop :=
  exists msg, f = Return None (Some {| code := c; message := msg |}).

(** The table and its counter are what they were: nothing was written. *)
Definition same_store (w w' : World) : Prop :=
  table w' = table w /\ auto_increment w' = auto_increment w.

(** No write statement is among the effects added from [w] to [w']. *)
Definition wrote_nothing (w w' : World) : Prop :=
  exists added, events w' = (events w ++ added)%list
    /\ forall stmt args, ~ In (Executed stmt args) added.

(** The effects one call of a handler may add to the trace: none; a
    connection opened and closed; or, in between, one statement: a write, or
    a query whose cursor is closed before the connection is. *)
Definition one_statement_trace (added : list Event) : Prop :=
  added = []
  \/ added = [ConnOpened; ConnClosed]
  \/ (exists stmt args, added = [ConnOpened; Executed stmt args; ConnClosed])
  \/ (exists stmt args, added = [ConnOpened; Queried stmt args; RowsClosed; ConnClosed]).

(** From [w] to [w'] the driver conditions are the same and the trace grew by
    the effects of one call. *)
Definition one_call (w w' : World) : Prop :=
  faults w' = faults w
  /\ exists added, events w' = (events w ++ added)%list /\ one_statement_trace added.

(** The world after a write statement ran on an open connection and the
    connection was closed. *)
Definition after_exec (stmt : ExecStatement) (args : list Value) (tbl : list Row)
    (next : Z) (w : World) : World :=
  Conn_Close {| table := tbl; auto_increment := next; faults := faults w;
                events := (events (log ConnOpened w) ++ [Executed stmt args])%list |}.

(** The row Create inserts for a task under the id [id]. *)
Definition created_row (id : Z) (todo : Todo.t) : Row :=
  {| row_id := id; row_title := Some (Todo.Title todo);
     row_description := Some (Todo.Description todo);
     row_reminder := Some (store_time (fst (ptypes_Timestamp (Todo.Reminder todo)))) |}.

(** The same world under other driver conditions. *)
Definition with_faults (f : Faults) (w : World) : World :=
  {| table := table w; auto_increment := auto_increment w; faults := f;
     events := events w |}.

(** One call of the service. *)
Inductive Call : Type :=
| CallCreate (req : CreateRequest.t)
| CallRead (req : ReadRequest.t)
| CallUpdate (req : UpdateRequest.t)
| CallDelete (req : DeleteRequest.t)
| CallReadAll (req : ReadAllRequest.t).

(** The world a call leaves behind. *)
Definition serve (c : Call) (w : World) : World :=
  match c with
  | CallCreate req => snd (Create req w)
  | CallRead req => snd (Read req w)
  | CallUpdate req => snd (Update req w)
  | CallDelete req => snd (Delete req w)
  | CallReadAll req => snd (ReadAll req w)
  end.

(** Calls served one after the other, each under the driver conditions of
    its moment. *)
Definition serve_all (calls : list (Faults * Call)) (w : World) : World :=
  fold_left (fun w fc => serve (snd fc) (with_faults (fst fc) w)) calls w.


(** The status of a refused version: it names the version the service
    implements and the one asked for. *)
Definition unsupported (api : string) : Status :=
  {| code := Unimplemented;
     message := "Unsupported API version: service implements API version '"
                ++ apiVersion ++ "', but asked for '" ++ api ++ "'" |}.

(** ** The version gate *)

Lemma checkAPI_accepted (api : string) : accepted api -> checkAPI api = None.
Proof.
  intros [-> | ->]; reflexivity.
Qed.

Lemma checkAPI_refused (api : string) :
  api <> "" -> api <> apiVersion -> checkAPI api = Some (unsupported api).
Proof.
  intros Hne Hv. unfold checkAPI.
  destruct api as [|a rest]; [congruence|].
  replace (0 <? String.length (String a rest))%nat with true by reflexivity.
  assert (E : String.eqb apiVersion (String a rest) = false)
    by (apply String.eqb_neq; congruence).
  rewrite E. reflexivity.
Qed.

Lemma checkAPI_cases (api : string) :
  (accepted api /\ checkAPI api = None)
  \/ (~ accepted api /\ checkAPI api = Some (unsupported api)).
Proof.
  destruct (string_dec api "") as [E | E].
  - left. split; [left; exact E | subst; reflexivity].
  - destruct (string_dec api apiVersion) as [V | V].
    + left. split; [right; exact V | subst; reflexivity].
    + right. split; [intros [H | H]; contradiction | now apply checkAPI_refused].
Qed.

(** C1. The version gate accepts the empty version, which every operation
    then serves exactly as the current one; and every operation called with a
    non-empty version other than "v1" returns the Unimplemented status naming
    both versions, with the world (pool, table, trace of effects) untouched,
    whatever the other fields of the request hold. *)
Theorem C1_version_gate (api : string) (w : World) :
  (checkAPI "" = None
   /\ (forall todo, Create {| CreateRequest.Api := ""; CreateRequest.Todo := todo |} w
                    = Create {| CreateRequest.Api := apiVersion; CreateRequest.Todo := todo |} w)
   /\ (forall id, Read {| ReadRequest.Api := ""; ReadRequest.Id := id |} w
                  = Read {| ReadRequest.Api := apiVersion; ReadRequest.Id := id |} w)
   /\ (forall todo, Update {| UpdateRequest.Api := ""; UpdateRequest.Todo := todo |} w
                    = Update {| UpdateRequest.Api := apiVersion; UpdateRequest.Todo := todo |} w)
   /\ (forall id, Delete {| DeleteRequest.Api := ""; DeleteRequest.Id := id |} w
                  = Delete {| DeleteRequest.Api := apiVersion; DeleteRequest.Id := id |} w)
   /\ ReadAll {| ReadAllRequest.Api := "" |} w
      = ReadAll {| ReadAllRequest.Api := apiVersion |} w)
  /\ (api <> "" -> api <> "v1" ->
      checkAPI api = Some (unsupported api)
      /\ (forall todo, Create {| CreateRequest.Api := api; CreateRequest.Todo := todo |} w
                       = (Return None (Some (unsupported api)), w))
      /\ (forall id, Read {| ReadRequest.Api := api; ReadRequest.Id := id |} w
                     = (Return None (Some (unsupported api)), w))
      /\ (forall todo, Update {| UpdateRequest.Api := api; UpdateRequest.Todo := todo |} w
                       = (Return None (Some (unsupported api)), w))
      /\ (forall id, Delete {| DeleteRequest.Api := api; DeleteRequest.Id := id |} w
                     = (Return None (Some (unsupported api)), w))
      /\ ReadAll {| ReadAllRequest.Api := api |} w
         = (Return None (Some (unsupported api)), w)).
Proof.
  split.
  - repeat split; intros; reflexivity.
  - intros Hne Hv.
    pose proof (checkAPI_refused api Hne Hv) as G.
    split; [exact G|].
    unfold Create, Read, Update, Delete, ReadAll; cbn [CreateRequest.Api ReadRequest.Api
      UpdateRequest.Api DeleteRequest.Api ReadAllRequest.Api].
    rewrite G. repeat split; intros; reflexivity.
Qed.

(** ** Pool and driver calls under known conditions *)

Lemma connect_up (w : World) :
  pool_up w -> connect w = ((Some PoolConn, None), log ConnOpened w).
Proof.
  unfold pool_up, connect, db_Conn. intros ->. reflexivity.
Qed.

Lemma connect_down (w : World) (err : string) :
  conn_fault (faults w) = Some err ->
  connect w
  = ((None, Some (status_Error Unknown ("Failed to connect to database -> " ++ err))), w).
Proof.
  unfold connect, db_Conn. intros ->. reflexivity.
Qed.

Lemma healthy_pool_up (w : World) : healthy w -> pool_up w.
Proof.
  unfold healthy, pool_up. intros ->. reflexivity.
Qed.

Lemma wrote_nothing_log (w w' : World) (e : Event) :
  (forall stmt args, e <> Executed stmt args) ->
  wrote_nothing w w' -> wrote_nothing w (log e w').
Proof.
  intros He (added & E & Hn). exists (added ++ [e])%list. split.
  - cbn. rewrite E. now rewrite app_assoc.
  - intros stmt args Hin. apply in_app_or in Hin as [Hin | [Hin | []]].
    + exact (Hn _ _ Hin).
    + exact (He _ _ Hin).
Qed.

Lemma wrote_nothing_refl (w : World) : wrote_nothing w w.
Proof.
  exists []. split; [now rewrite app_nil_r | intros ? ? []].
Qed.

(** ** Timestamps *)

Lemma validateTimestamp_valid (ts : Timestamp.t) :
  validateTimestamp (Some ts) = None <->
  minValidSeconds <= Timestamp.Seconds ts < maxValidSeconds
  /\ 0 <= Timestamp.Nanos ts < 1000000000.
Proof.
  unfold validateTimestamp.
  destruct (Timestamp.Seconds ts <? minValidSeconds) eqn:E1;
    [apply Z.ltb_lt in E1; split; [discriminate | lia] | apply Z.ltb_ge in E1].
  destruct (maxValidSeconds <=? Timestamp.Seconds ts) eqn:E2;
    [apply Z.leb_le in E2; split; [discriminate | lia] | apply Z.leb_gt in E2].
  destruct (Timestamp.Nanos ts <? 0) eqn:E3;
    [apply Z.ltb_lt in E3; split; [discriminate | lia] | apply Z.ltb_ge in E3].
  destruct (1000000000 <=? Timestamp.Nanos ts) eqn:E4;
    [apply Z.leb_le in E4; split; [discriminate | lia] | apply Z.leb_gt in E4].
  cbn. split; [lia | reflexivity].
Qed.

Lemma time_Unix_in_range (sec nsec : Z) :
  0 <= nsec < 1000000000 -> time_Unix sec nsec = {| unix := sec; nanosecond := nsec |}.
Proof.
  intros H. unfold time_Unix.
  replace (nsec <? 0) with false by (symmetry; apply Z.ltb_ge; lia).
  replace (1000000000 <=? nsec) with false by (symmetry; apply Z.leb_gt; lia).
  reflexivity.
Qed.

(** A valid timestamp converts to an instant that converts back to it. *)
Lemma TimestampProto_Timestamp (ts : Timestamp.t) :
  validateTimestamp (Some ts) = None ->
  ptypes_TimestampProto (fst (ptypes_Timestamp (Some ts))) = (Some ts, None).
Proof.
  intros V. pose proof V as V'. apply validateTimestamp_valid in V' as [_ Hn].
  unfold ptypes_Timestamp, ptypes_TimestampProto. cbn [fst].
  rewrite (time_Unix_in_range _ _ Hn). cbn [unix nanosecond].
  destruct ts as [s n]. cbn [Timestamp.Seconds Timestamp.Nanos] in *.
  rewrite V. reflexivity.
Qed.

(** ** Malformed reminders *)

(** C6, as amended. A Create or Update request whose version passes the gate
    and whose reminder is not a valid timestamp fails with InvalidArgument
    once a connection has been acquired, and with Unknown when the pool gives
    none; either way the table and its counter are unchanged and no write
    statement is executed. *)
Theorem C6_malformed_reminder (api : string) (todo : Todo.t) (w : World) :
  accepted api ->
  validateTimestamp (Todo.Reminder todo) <> None ->
  let create := Create {| CreateRequest.Api := api; CreateRequest.Todo := Some todo |} w in
  let update := Update {| UpdateRequest.Api := api; UpdateRequest.Todo := Some todo |} w in
  (pool_up w ->
   fails_with InvalidArgument (fst create) /\ fails_with InvalidArgument (fst update))
  /\ (~ pool_up w -> fails_with Unknown (fst create) /\ fails_with Unknown (fst update))
  /\ same_store w (snd create) /\ wrote_nothing w (snd create)
  /\ same_store w (snd update) /\ wrote_nothing w (snd update).
Proof.
  intros Hapi Hbad create update. subst create update.
  unfold Create, Update, bind, call, defer, deref, ret, ptypes_Timestamp.
  cbn [CreateRequest.Api CreateRequest.Todo UpdateRequest.Api UpdateRequest.Todo].
  rewrite (checkAPI_accepted api Hapi).
  destruct (validateTimestamp (Todo.Reminder todo)) as [bad|] eqn:V; [clear Hbad | congruence].
  destruct (conn_fault (faults w)) as [err|] eqn:F.
  - rewrite (connect_down w err F). cbn [fst snd].
    split; [unfold pool_up; congruence|].
    split; [intros _; split; eexists; reflexivity|].
    repeat split; apply wrote_nothing_refl.
  - rewrite (connect_up w F). cbn [fst snd].
    split; [intros _; split; eexists; reflexivity|].
    split; [intros Hdown; contradiction|].
    repeat split; apply wrote_nothing_log; try discriminate;
      apply wrote_nothing_log; try discriminate; apply wrote_nothing_refl.
Qed.

(** ** The engine on the statements of the service *)

Lemma matches_id (id : Z) (r : Row) :
  matches ColId (VInt64 id) r = (row_id r =? id).
Proof. reflexivity. Qed.

(** The service's UPDATE, run by the engine, is the overwrite of the rows
    with the given id; it counts the rows it changed. *)
Lemma update_rows_overwrite (title description : string) (reminder : Time) (id : Z)
    (tbl : list Row) :
  update_rows [ColTitle; ColDescription; ColReminder]
    [VString title; VString description; VTime reminder] ColId (VInt64 id) tbl
  = Some (overwrite_id id title description reminder tbl,
          Z.of_nat (Datatypes.length (changed_by id title description reminder tbl))).
Proof.
  induction tbl as [|r rest IH]; [reflexivity|].
  cbn [update_rows]. rewrite IH, matches_id.
  unfold overwrite_id, changed_by. cbn [map filter].
  destruct (row_id r =? id) eqn:E; [|reflexivity].
  cbn [assign_all assign andb row_id row_title row_description row_reminder].
  change {| row_id := row_id r; row_title := Some title;
            row_description := Some description;
            row_reminder := Some (store_time reminder) |}
    with (overwrite title description reminder r).
  destruct (Row_eqb r (overwrite title description reminder r)); cbn [negb];
    [reflexivity|].
  cbn [Datatypes.length]. rewrite Nat2Z.inj_succ. unfold Z.succ. reflexivity.
Qed.

Lemma overwrite_id_absent (title description : string) (reminder : Time) (id : Z)
    (tbl : list Row) :
  (forall r, In r tbl -> row_id r <> id) ->
  overwrite_id id title description reminder tbl = tbl
  /\ changed_by id title description reminder tbl = [].
Proof.
  induction tbl as [|r rest IH]; intros H; [split; reflexivity|].
  unfold overwrite_id, changed_by in *. cbn [map filter].
  assert (E : (row_id r =? id) = false) by (apply Z.eqb_neq, H; now left).
  rewrite E. cbn [andb].
  destruct IH as [IH1 IH2]; [intros r' Hr'; apply H; now right|].
  rewrite IH1, IH2. split; reflexivity.
Qed.

Lemma overwrite_id_ids (title description : string) (reminder : Time) (id : Z)
    (tbl : list Row) :
  map row_id (overwrite_id id title description reminder tbl) = map row_id tbl.
Proof.
  unfold overwrite_id. rewrite map_map. apply map_ext. intros r.
  destruct (row_id r =? id); reflexivity.
Qed.

Lemma delete_absent (id : Z) (tbl : list Row) :
  (forall r, In r tbl -> row_id r <> id) ->
  filter (fun r => negb (matches ColId (VInt64 id) r)) tbl = tbl.
Proof.
  induction tbl as [|r rest IH]; intros H; [reflexivity|].
  cbn [filter]. rewrite matches_id.
  assert (E : (row_id r =? id) = false) by (apply Z.eqb_neq, H; now left).
  rewrite E. cbn [negb]. rewrite IH; [reflexivity|].
  intros r' Hr'. apply H. now right.
Qed.

(** [ExecContext] on the service's UPDATE when the driver reports no error. *)
Lemma ExecContext_update (c : Conn) (title description : string) (reminder : Time)
    (id : Z) (w : World) :
  exec_fault (faults w) = None ->
  ExecContext c (UpdateSetWhere [ColTitle; ColDescription; ColReminder] ColId)
    [VString title; VString description; VTime reminder; VInt64 id] w
  = ((Some {| insert_id := 0;
              affected := Z.of_nat (Datatypes.length
                                      (changed_by id title description reminder (table w)));
              result_err := result_fault (faults w) |}, None),
     {| table := overwrite_id id title description reminder (table w);
        auto_increment := auto_increment w;
        faults := faults w;
        events := (events w
                   ++ [Executed (UpdateSetWhere [ColTitle; ColDescription; ColReminder] ColId)
                         [VString title; VString description; VTime reminder; VInt64 id]])%list |}).
Proof.
  intros F. unfold ExecContext, engine_exec. rewrite F.
  cbn [Datatypes.length skipn firstn]. rewrite update_rows_overwrite.
  reflexivity.
Qed.

(** [ExecContext] on the service's DELETE when the driver reports no error. *)
Lemma ExecContext_delete (c : Conn) (id : Z) (w : World) :
  exec_fault (faults w) = None ->
  ExecContext c (DeleteWhere ColId) [VInt64 id] w
  = ((Some {| insert_id := 0;
              affected := Z.of_nat (Datatypes.length (table w))
                          - Z.of_nat (Datatypes.length
                                        (filter (fun r => negb (matches ColId (VInt64 id) r))
                                           (table w)));
              result_err := result_fault (faults w) |}, None),
     {| table := filter (fun r => negb (matches ColId (VInt64 id) r)) (table w);
        auto_increment := auto_increment w;
        faults := faults w;
        events := (events w ++ [Executed (DeleteWhere ColId) [VInt64 id]])%list |}).
Proof.
  intros F. unfold ExecContext, engine_exec. rewrite F. reflexivity.
Qed.

Lemma ExecContext_fault (c : Conn) (stmt : ExecStatement) (args : list Value)
    (w : World) (err : string) :
  exec_fault (faults w) = Some err ->
  ExecContext c stmt args w = ((None, Some err), w).
Proof.
  intros F. unfold ExecContext. rewrite F. reflexivity.
Qed.

(** ** Update and Delete *)

(** Update once the gate is passed, a connection acquired and the reminder
    valid: what the driver reports decides the outcome. *)
Lemma Update_run (api : string) (todo : Todo.t) (w : World) :
  accepted api -> pool_up w -> validateTimestamp (Todo.Reminder todo) = None ->
  let reminder := fst (ptypes_Timestamp (Todo.Reminder todo)) in
  let w1 := log ConnOpened w in
  let w2 :=
    {| table := overwrite_id (Todo.Id todo) (Todo.Title todo) (Todo.Description todo)
                  reminder (table w);
       auto_increment := auto_increment w;
       faults := faults w;
       events := (events w1
                  ++ [Executed (UpdateSetWhere [ColTitle; ColDescription; ColReminder] ColId)
                        [VString (Todo.Title todo); VString (Todo.Description todo);
                         VTime reminder; VInt64 (Todo.Id todo)]])%list |} in
  Update {| UpdateRequest.Api := api; UpdateRequest.Todo := Some todo |} w
  = match exec_fault (faults w) with
    | Some _ => (Panic nil_dereference, Conn_Close w1)
    | None =>
        match result_fault (faults w) with
        | Some err =>
            (Return None (Some (status_Error Unknown
                                  ("Failed to retrieve rows affected value ->" ++ err))),
             Conn_Close w2)
        | None =>
            (Return (Some {| UpdateResponse.Api := apiVersion;
                             UpdateResponse.Updated :=
                               Z.of_nat (Datatypes.length
                                           (changed_by (Todo.Id todo) (Todo.Title todo)
                                              (Todo.Description todo) reminder (table w))) |})
                    None,
             Conn_Close w2)
        end
    end.
Proof.
  intros Hapi Hup V reminder w1 w2. subst reminder w1 w2.
  unfold Update, bind, call, defer, deref, ret, ptypes_Timestamp.
  cbn [UpdateRequest.Api UpdateRequest.Todo fst].
  rewrite (checkAPI_accepted api Hapi), (connect_up w Hup), V.
  destruct (exec_fault (faults w)) as [err|] eqn:F.
  - rewrite (ExecContext_fault _ _ _ (log ConnOpened w) err F). reflexivity.
  - rewrite ExecContext_update by exact F.
    unfold RowsAffected. cbn [result_err affected faults log table].
    destruct (result_fault (faults w)); reflexivity.
Qed.

(** C4 (the code departs from it). When the driver reports an error for the
    UPDATE statement, Update neither returns that error nor any other status:
    it uses the nil result and panics. Create and Delete, under the same
    condition, return an Unknown status. *)
Theorem C4_update_write_failure (api : string) (todo : Todo.t) (w : World) (err : string) :
  accepted api -> pool_up w -> validateTimestamp (Todo.Reminder todo) = None ->
  exec_fault (faults w) = Some err ->
  Update {| UpdateRequest.Api := api; UpdateRequest.Todo := Some todo |} w
  = (Panic nil_dereference, Conn_Close (log ConnOpened w))
  /\ fails_with Unknown
       (fst (Create {| CreateRequest.Api := api; CreateRequest.Todo := Some todo |} w))
  /\ forall id, fails_with Unknown
                  (fst (Delete {| DeleteRequest.Api := api; DeleteRequest.Id := id |} w)).
Proof.
  intros Hapi Hup V F. split; [|split].
  - rewrite (Update_run api todo w Hapi Hup V). cbn zeta. rewrite F. reflexivity.
  - unfold Create, bind, call, defer, deref, ret, ptypes_Timestamp.
    cbn [CreateRequest.Api CreateRequest.Todo].
    rewrite (checkAPI_accepted api Hapi), (connect_up w Hup), V.
    rewrite (ExecContext_fault _ _ _ (log ConnOpened w) err F).
    eexists; reflexivity.
  - intros id. unfold Delete, bind, call, defer, deref, ret.
    cbn [DeleteRequest.Api DeleteRequest.Id].
    rewrite (checkAPI_accepted api Hapi), (connect_up w Hup).
    rewrite (ExecContext_fault _ _ _ (log ConnOpened w) err F).
    eexists; reflexivity.
Qed.

(** C2. On an id no stored row has, with the version accepted, the reminder
    valid and pool and driver working: Update returns a response with a count
    of 0 and no error, Delete returns no response and a NotFound status naming
    the id; neither changes the table. *)
Theorem C2_absent_id (api : string) (todo : Todo.t) (w : World) :
  accepted api -> healthy w -> validateTimestamp (Todo.Reminder todo) = None ->
  (forall r, In r (table w) -> row_id r <> Todo.Id todo) ->
  (exists w',
     Update {| UpdateRequest.Api := api; UpdateRequest.Todo := Some todo |} w
     = (Return (Some {| UpdateResponse.Api := apiVersion; UpdateResponse.Updated := 0 |}) None,
        w')
     /\ table w' = table w)
  /\ (exists w',
        Delete {| DeleteRequest.Api := api; DeleteRequest.Id := Todo.Id todo |} w
        = (Return None
             (Some {| code := NotFound;
                      message := "Todo with ID = '" ++ itoa (Todo.Id todo)
                                 ++ "' is not found" |}),
           w')
        /\ table w' = table w).
Proof.
  intros Hapi Hw V Habsent. pose proof (healthy_pool_up w Hw) as Hup.
  unfold healthy in Hw. split.
  - rewrite (Update_run api todo w Hapi Hup V). cbn zeta. rewrite Hw.
    cbn [exec_fault result_fault no_faults].
    destruct (overwrite_id_absent (Todo.Title todo) (Todo.Description todo)
                (fst (ptypes_Timestamp (Todo.Reminder todo))) (Todo.Id todo) (table w) Habsent)
      as [E1 E2].
    rewrite E1, E2. eexists. split; reflexivity.
  - unfold Delete, bind, call, defer, deref, ret.
    cbn [DeleteRequest.Api DeleteRequest.Id].
    rewrite (checkAPI_accepted api Hapi), (connect_up w Hup).
    rewrite ExecContext_delete by (cbn; rewrite Hw; reflexivity).
    unfold RowsAffected. cbn [result_err affected faults log table].
    rewrite Hw. cbn [result_fault no_faults].
    rewrite (delete_absent _ _ Habsent), Z.sub_diag. cbn [Z.eqb].
    eexists. split; reflexivity.
Qed.

Lemma Forall2_same {A : Type} (P : A -> A -> Prop) (l : list A) :
  (forall x, P x x) -> Forall2 P l l.
Proof.
  intros H. induction l; constructor; auto.
Qed.

Lemma Forall2_map_right {A : Type} (P : A -> A -> Prop) (f : A -> A) (l : list A) :
  (forall x, P x (f x)) -> Forall2 P l (map f l).
Proof.
  intros H. induction l; cbn; constructor; auto.
Qed.

(** The table after Update is the table before, or its overwrite at the
    request's id; the counter is never touched. *)
Lemma Update_table (req : UpdateRequest.t) (w : World) :
  auto_increment (snd (Update req w)) = auto_increment w
  /\ (table (snd (Update req w)) = table w
      \/ exists todo,
           UpdateRequest.Todo req = Some todo
           /\ table (snd (Update req w))
              = overwrite_id (Todo.Id todo) (Todo.Title todo) (Todo.Description todo)
                  (fst (ptypes_Timestamp (Todo.Reminder todo))) (table w)).
Proof.
  destruct req as [api todo].
  destruct (checkAPI_cases api) as [[Hapi G] | [Hapi G]].
  2:{ unfold Update. cbn [UpdateRequest.Api]. rewrite G. split; [reflexivity | now left]. }
  destruct (conn_fault (faults w)) as [err|] eqn:F.
  { unfold Update, bind, call. cbn [UpdateRequest.Api]. rewrite G, (connect_down w err F).
    split; [reflexivity | now left]. }
  destruct todo as [todo|].
  2:{ unfold Update, bind, call, defer, deref. cbn [UpdateRequest.Api UpdateRequest.Todo].
      rewrite G, (connect_up w F). split; [reflexivity | now left]. }
  destruct (validateTimestamp (Todo.Reminder todo)) as [bad|] eqn:V.
  { unfold Update, bind, call, defer, deref, ret, ptypes_Timestamp.
    cbn [UpdateRequest.Api UpdateRequest.Todo]. rewrite G, (connect_up w F), V.
    split; [reflexivity | now left]. }
  rewrite (Update_run api todo w Hapi F V). cbn zeta.
  destruct (exec_fault (faults w)); [split; [reflexivity | now left]|].
  destruct (result_fault (faults w)); (split; [reflexivity|]);
    right; exists todo; split; reflexivity.
Qed.

(** A response from Update means the statement was executed: the table is
    overwritten at the request's id, and the count is of the rows changed. *)
Lemma Update_response (req : UpdateRequest.t) (w : World) (resp : UpdateResponse.t)
    (err : option Status) :
  fst (Update req w) = Return (Some resp) err ->
  exists todo,
    UpdateRequest.Todo req = Some todo
    /\ err = None
    /\ UpdateResponse.Api resp = apiVersion
    /\ table (snd (Update req w))
       = overwrite_id (Todo.Id todo) (Todo.Title todo) (Todo.Description todo)
           (fst (ptypes_Timestamp (Todo.Reminder todo))) (table w)
    /\ UpdateResponse.Updated resp
       = Z.of_nat (Datatypes.length
                     (changed_by (Todo.Id todo) (Todo.Title todo) (Todo.Description todo)
                        (fst (ptypes_Timestamp (Todo.Reminder todo))) (table w))).
Proof.
  destruct req as [api todo].
  destruct (checkAPI_cases api) as [[Hapi G] | [Hapi G]].
  2:{ unfold Update. cbn [UpdateRequest.Api]. rewrite G. discriminate. }
  destruct (conn_fault (faults w)) as [e|] eqn:F.
  { unfold Update, bind, call. cbn [UpdateRequest.Api]. rewrite G, (connect_down w e F).
    discriminate. }
  destruct todo as [todo|].
  2:{ unfold Update, bind, call, defer, deref. cbn [UpdateRequest.Api UpdateRequest.Todo].
      rewrite G, (connect_up w F). discriminate. }
  destruct (validateTimestamp (Todo.Reminder todo)) as [bad|] eqn:V.
  { unfold Update, bind, call, defer, deref, ret, ptypes_Timestamp.
    cbn [UpdateRequest.Api UpdateRequest.Todo]. rewrite G, (connect_up w F), V.
    discriminate. }
  rewrite (Update_run api todo w Hapi F V). cbn zeta.
  destruct (exec_fault (faults w)); [discriminate|].
  destruct (result_fault (faults w)); [discriminate|].
  cbn [fst snd]. intros E. injection E as <- <-.
  exists todo. repeat split.
Qed.

(** C9. Whatever the request and the world, Update leaves every stored row
    either as it was or, when its id is the request's, with title,
    description and reminder overwritten; no row's id changes, rows with
    other ids are unchanged, no row is added or removed. When Update returns
    a response, the rows with the request's id have been overwritten. *)
Theorem C9_update_in_place (req : UpdateRequest.t) (w : World) :
  Forall2 (updated_row req) (table w) (table (snd (Update req w)))
  /\ map row_id (table (snd (Update req w))) = map row_id (table w)
  /\ (forall i r,
        nth_error (table w) i = Some r ->
        option_map Todo.Id (UpdateRequest.Todo req) <> Some (row_id r) ->
        nth_error (table (snd (Update req w))) i = Some r)
  /\ (forall resp err,
        fst (Update req w) = Return (Some resp) err ->
        exists todo,
          UpdateRequest.Todo req = Some todo
          /\ table (snd (Update req w))
             = overwrite_id (Todo.Id todo) (Todo.Title todo) (Todo.Description todo)
                 (fst (ptypes_Timestamp (Todo.Reminder todo))) (table w)).
Proof.
  assert (Hresp : forall resp err,
             fst (Update req w) = Return (Some resp) err ->
             exists todo,
               UpdateRequest.Todo req = Some todo
               /\ table (snd (Update req w))
                  = overwrite_id (Todo.Id todo) (Todo.Title todo) (Todo.Description todo)
                      (fst (ptypes_Timestamp (Todo.Reminder todo))) (table w)).
  { intros resp err Hr.
    destruct (Update_response req w resp err Hr) as (todo & Ht & _ & _ & Et & _).
    exists todo. split; [exact Ht | exact Et]. }
  split; [|split; [|split; [|exact Hresp]]]; clear Hresp;
    destruct (Update_table req w) as [_ [E | (todo & Ht & E)]]; rewrite E.
  - apply Forall2_same. intros r. split; [reflexivity | now left].
  - unfold overwrite_id. apply Forall2_map_right. intros r.
    destruct (row_id r =? Todo.Id todo) eqn:Q.
    + split; [reflexivity|]. right. exists todo. apply Z.eqb_eq in Q. auto.
    + split; [reflexivity | now left].
  - reflexivity.
  - apply overwrite_id_ids.
  - intros i r Hi _. exact Hi.
  - intros i r Hi Hother. unfold overwrite_id.
    rewrite nth_error_map, Hi. cbn [option_map].
    rewrite Ht in Hother. cbn [option_map] in Hother.
    destruct (row_id r =? Todo.Id todo) eqn:Q; [|reflexivity].
    apply Z.eqb_eq in Q. congruence.
Qed.

(** ** Read *)

Lemma QueryContext_select_id (c : Conn) (id : Z) (w : World) :
  query_fault (faults w) = None -> cursor_fault (faults w) = None ->
  QueryContext c (SelectWhere todo_columns ColId) [VInt64 id] w
  = ((Some {| current := None;
              pending := map row_values (filter (matches ColId (VInt64 id)) (table w));
              rows_err := None |}, None),
     log (Queried (SelectWhere todo_columns ColId) [VInt64 id]) w).
Proof.
  intros Q C. unfold QueryContext, engine_query. rewrite Q, C. reflexivity.
Qed.

Lemma filter_id_absent (id : Z) (tbl : list Row) :
  (forall r, In r tbl -> row_id r <> id) ->
  filter (matches ColId (VInt64 id)) tbl = [].
Proof.
  induction tbl as [|r rest IH]; intros H; [reflexivity|].
  cbn [filter]. rewrite matches_id.
  assert (E : (row_id r =? id) = false) by (apply Z.eqb_neq, H; now left).
  rewrite E. apply IH. intros r' Hr'. apply H. now right.
Qed.

(** A row that decodes scans without error, and its timestamp converts. *)
Lemma decode_scan (r : Row) (td : Todo.t) (rest : list (list Value)) (broken : option string) :
  decode r = Some td ->
  exists reminder ts,
    Rows_Scan {| current := Some (row_values r); pending := rest; rows_err := broken |}
    = ((Todo.Id td, Todo.Title td, Todo.Description td, reminder), None)
    /\ ptypes_TimestampProto reminder = (Some ts, None)
    /\ Todo.Reminder td = Some ts
    /\ Todo.Id td = row_id r
    /\ row_reminder r = Some reminder.
Proof.
  destruct r as [id [title|] [description|] [reminder|]]; cbn; try discriminate.
  destruct (ptypes_TimestampProto reminder) as [[ts|] [e|]] eqn:P; try discriminate.
  intros E. injection E as <-. exists reminder, ts. cbn. rewrite P. repeat split.
Qed.

(** Read on a healthy world when no row has the id. *)
Lemma Read_absent (api : string) (id : Z) (w : World) :
  accepted api -> healthy w ->
  filter (matches ColId (VInt64 id)) (table w) = [] ->
  Read {| ReadRequest.Api := api; ReadRequest.Id := id |} w
  = (Return None
       (Some {| code := NotFound; message := "Todo with ID='%!d(MISSING)' is not found" |}),
     after_query (SelectWhere todo_columns ColId) [VInt64 id] w).
Proof.
  intros Hapi Hw Hnone. pose proof (healthy_pool_up w Hw) as Hup. unfold healthy in Hw.
  unfold Read, bind, call, defer, deref, ret.
  cbn [ReadRequest.Api ReadRequest.Id].
  rewrite (checkAPI_accepted api Hapi), (connect_up w Hup).
  rewrite QueryContext_select_id by (cbn; rewrite Hw; reflexivity).
  cbn [table log]. rewrite Hnone. reflexivity.
Qed.

(** Read on a healthy world when a row with the id comes first and decodes:
    the task is returned if the row is the only one; with any further row the
    handler returns neither a response nor an error. *)
Lemma Read_found (api : string) (id : Z) (w : World) (r : Row) (more : list Row)
    (td : Todo.t) :
  accepted api -> healthy w ->
  filter (matches ColId (VInt64 id)) (table w) = r :: more ->
  decode r = Some td ->
  Read {| ReadRequest.Api := api; ReadRequest.Id := id |} w
  = (match more with
     | [] => Return (Some {| ReadResponse.Api := apiVersion;
                             ReadResponse.Todo := Some td |}) None
     | _ :: _ => Return None None
     end,
     after_query (SelectWhere todo_columns ColId) [VInt64 id] w).
Proof.
  intros Hapi Hw Hsel Hdec. pose proof (healthy_pool_up w Hw) as Hup. unfold healthy in Hw.
  unfold Read, bind, call, defer, deref, ret.
  cbn [ReadRequest.Api ReadRequest.Id].
  rewrite (checkAPI_accepted api Hapi), (connect_up w Hup).
  rewrite QueryContext_select_id by (cbn; rewrite Hw; reflexivity).
  cbn [table log]. rewrite Hsel. cbn [map].
  unfold Rows_Next at 1. cbn [pending rows_err negb].
  destruct (decode_scan r td (map row_values more) None Hdec)
    as (reminder & ts & Hscan & Hts & Hrem & _ & _).
  rewrite Hscan, Hts.
  destruct td as [tid ttitle tdesc trem]. cbn [Todo.Id Todo.Title Todo.Description Todo.Reminder] in *.
  subst trem.
  destruct more as [|r' more']; reflexivity.
Qed.

(** The text printed for a verb with no operand holds no decimal numeral. *)
Lemma missing_operand_names_no_id (id : Z) :
  Contains "Todo with ID='%!d(MISSING)' is not found" (itoa id) = false.
Proof.
  unfold itoa. destruct (Z.to_int id) as [d | d]; destruct d; reflexivity.
Qed.

(** C5 (the code departs from it). Read on an id no stored row has, with the
    version accepted and pool and driver working, returns a NotFound status;
    its message is the same for every id, with the text fmt prints for a verb
    that has no operand where the id should be, and does not contain the
    id. *)
Theorem C5_read_absent_id (api : string) (id : Z) (w : World) :
  accepted api -> healthy w ->
  (forall r, In r (table w) -> row_id r <> id) ->
  exists w',
    Read {| ReadRequest.Api := api; ReadRequest.Id := id |} w
    = (Return None
         (Some {| code := NotFound;
                  message := "Todo with ID='%!d(MISSING)' is not found" |}), w')
    /\ Contains "Todo with ID='%!d(MISSING)' is not found" (itoa id) = false
    /\ table w' = table w.
Proof.
  intros Hapi Hw Habsent. eexists. split; [|split].
  - apply (Read_absent api id w Hapi Hw). now apply filter_id_absent.
  - apply missing_operand_names_no_id.
  - reflexivity.
Qed.

(** C3 (the code departs from it). Read on an id that two or more stored rows
    have, the first of which decodes, with the version accepted and pool and
    driver working: the handler returns a nil response together with a nil
    error, not an Unknown status. *)
Theorem C3_read_duplicate_id (api : string) (id : Z) (w : World) (r1 r2 : Row)
    (rest : list Row) :
  accepted api -> healthy w ->
  filter (matches ColId (VInt64 id)) (table w) = r1 :: r2 :: rest ->
  decode r1 <> None ->
  fst (Read {| ReadRequest.Api := api; ReadRequest.Id := id |} w) = Return None None.
Proof.
  intros Hapi Hw Hsel Hdec.
  destruct (decode r1) as [td|] eqn:D; [|congruence].
  rewrite (Read_found api id w r1 (r2 :: rest) td Hapi Hw Hsel D). reflexivity.
Qed.

(** ** Create, then Read *)

(** The row the service's INSERT adds for a task. *)
Lemma ExecContext_insert (c : Conn) (title description : string) (reminder : Time)
    (w : World) :
  exec_fault (faults w) = None ->
  ExecContext c (InsertInto [ColTitle; ColDescription; ColReminder])
    [VString title; VString description; VTime reminder] w
  = if has_id (auto_increment w) (table w) then
      ((None, Some "Error 1062: duplicate entry for key PRIMARY"), w)
    else
      ((Some {| insert_id := auto_increment w; affected := 1;
                result_err := result_fault (faults w) |}, None),
       {| table := (table w
                    ++ [{| row_id := auto_increment w; row_title := Some title;
                           row_description := Some description;
                           row_reminder := Some (store_time reminder) |}])%list;
          auto_increment := Z.max (auto_increment w) (auto_increment w + 1);
          faults := faults w;
          events := (events w
                     ++ [Executed (InsertInto [ColTitle; ColDescription; ColReminder])
                           [VString title; VString description; VTime reminder]])%list |}).
Proof.
  intros F. unfold ExecContext, engine_exec. rewrite F.
  cbn [assign_all assign row_id row_title row_description row_reminder names_id existsb
       Column_eqb orb].
  destruct (has_id (auto_increment w) (table w)); reflexivity.
Qed.

(** A response from Create means a valid reminder and a row inserted under a
    fresh id, which the response carries. *)
Lemma Create_response (req : CreateRequest.t) (w w1 : World) (resp : CreateResponse.t)
    (err : option Status) :
  Create req w = (Return (Some resp) err, w1) ->
  exists todo,
    CreateRequest.Todo req = Some todo
    /\ err = None
    /\ CreateResponse.Api resp = apiVersion
    /\ validateTimestamp (Todo.Reminder todo) = None
    /\ has_id (CreateResponse.Id resp) (table w) = false
    /\ table w1
       = (table w
          ++ [{| row_id := CreateResponse.Id resp;
                 row_title := Some (Todo.Title todo);
                 row_description := Some (Todo.Description todo);
                 row_reminder :=
                   Some (store_time (fst (ptypes_Timestamp (Todo.Reminder todo)))) |}])%list.
Proof.
  destruct req as [api todo].
  destruct (checkAPI_cases api) as [[Hapi G] | [Hapi G]].
  2:{ unfold Create. cbn [CreateRequest.Api]. rewrite G. discriminate. }
  destruct (conn_fault (faults w)) as [e|] eqn:F.
  { unfold Create, bind, call. cbn [CreateRequest.Api]. rewrite G, (connect_down w e F).
    discriminate. }
  destruct todo as [todo|].
  2:{ unfold Create, bind, call, defer, deref. cbn [CreateRequest.Api CreateRequest.Todo].
      rewrite G, (connect_up w F). discriminate. }
  unfold Create, bind, call, defer, deref, ret, ptypes_Timestamp.
  cbn [CreateRequest.Api CreateRequest.Todo fst]. rewrite G, (connect_up w F).
  destruct (validateTimestamp (Todo.Reminder todo)) as [bad|] eqn:V; [discriminate|].
  destruct (exec_fault (faults w)) as [e|] eqn:X.
  { rewrite (ExecContext_fault _ _ _ (log ConnOpened w) e X). discriminate. }
  rewrite ExecContext_insert by exact X. cbn [table auto_increment log faults].
  destruct (has_id (auto_increment w) (table w)) eqn:Hfresh; [discriminate|].
  unfold LastInsertId. cbn [result_err insert_id].
  destruct (result_fault (faults w)); [discriminate|].
  intros E. injection E as <- <- <-.
  exists todo. cbn [CreateResponse.Id CreateResponse.Api table Conn_Close log].
  repeat split; assumption.
Qed.

(** Create succeeds on a valid task when pool and driver work and the counter
    is ahead of the stored ids. *)
Lemma Create_succeeds (api : string) (todo : Todo.t) (w : World) :
  accepted api -> healthy w -> validateTimestamp (Todo.Reminder todo) = None ->
  has_id (auto_increment w) (table w) = false ->
  exists w1,
    Create {| CreateRequest.Api := api; CreateRequest.Todo := Some todo |} w
    = (Return (Some {| CreateResponse.Api := apiVersion;
                       CreateResponse.Id := auto_increment w |}) None, w1).
Proof.
  intros Hapi Hw V Hfresh. pose proof (healthy_pool_up w Hw) as Hup. unfold healthy in Hw.
  unfold Create, bind, call, defer, deref, ret, ptypes_Timestamp.
  cbn [CreateRequest.Api CreateRequest.Todo fst].
  rewrite (checkAPI_accepted api Hapi), (connect_up w Hup), V.
  rewrite ExecContext_insert by (cbn; rewrite Hw; reflexivity).
  cbn [table auto_increment log faults]. rewrite Hfresh.
  unfold LastInsertId. cbn [result_err insert_id]. rewrite Hw. cbn [result_fault no_faults].
  eexists. reflexivity.
Qed.

Lemma filter_id_fresh (id : Z) (tbl : list Row) :
  has_id id tbl = false -> filter (matches ColId (VInt64 id)) tbl = [].
Proof.
  intros H. apply filter_id_absent. intros r Hr E.
  unfold has_id in H. apply Bool.not_true_iff_false in H. apply H.
  apply existsb_exists. exists r. split; [exact Hr | now apply Z.eqb_eq].
Qed.

(** C7. After a Create that returned a response, a Read of the id in that
    response, on the table Create left, with the version accepted and pool
    and driver working, returns the task with the title, description and
    reminder given to Create, provided the reminder is one the column keeps
    unchanged (it is within the stored precision). *)
Theorem C7_create_then_read (api api' : string) (todo : Todo.t) (w w1 w2 : World)
    (created : CreateResponse.t) :
  Create {| CreateRequest.Api := api; CreateRequest.Todo := Some todo |} w
  = (Return (Some created) None, w1) ->
  store_time (fst (ptypes_Timestamp (Todo.Reminder todo)))
  = fst (ptypes_Timestamp (Todo.Reminder todo)) ->
  accepted api' -> healthy w2 -> table w2 = table w1 ->
  exists w3,
    Read {| ReadRequest.Api := api'; ReadRequest.Id := CreateResponse.Id created |} w2
    = (Return (Some {| ReadResponse.Api := apiVersion;
                       ReadResponse.Todo :=
                         Some {| Todo.Id := CreateResponse.Id created;
                                 Todo.Title := Todo.Title todo;
                                 Todo.Description := Todo.Description todo;
                                 Todo.Reminder := Todo.Reminder todo |} |}) None, w3).
Proof.
  intros Hc Hprec Hapi Hw Ht.
  destruct (Create_response _ _ _ _ _ Hc) as (todo' & E & _ & _ & V & Hfresh & Htbl).
  cbn [CreateRequest.Todo] in E. injection E as <-.
  destruct (Todo.Reminder todo) as [ts|] eqn:R; [|discriminate V].
  eexists.
  eapply (Read_found api' (CreateResponse.Id created) w2 _ [] _ Hapi Hw).
  - rewrite Ht, Htbl, filter_app, (filter_id_fresh _ _ Hfresh).
    cbn [filter app]. rewrite matches_id. cbn [row_id]. rewrite Z.eqb_refl. reflexivity.
  - unfold decode. cbn [row_id row_title row_description row_reminder].
    rewrite Hprec, (TimestampProto_Timestamp ts V). reflexivity.
Qed.

(** ** ReadAll *)

Lemma TimestampProto_cases (t : Time) :
  (exists ts, ptypes_TimestampProto t = (Some ts, None))
  \/ (exists err, ptypes_TimestampProto t = (None, Some err)).
Proof.
  unfold ptypes_TimestampProto.
  destruct (validateTimestamp _) as [err|]; [right | left]; eexists; reflexivity.
Qed.

(** A row that does not decode stops the loop of ReadAll with an Unknown
    status: at the scan, or at the conversion of its timestamp. *)
Lemma ReadAll_rows_undecodable (broken : option string) (r : Row) (rest : list (list Value))
    (todos : list Todo.t) :
  decode r = None ->
  fails_with Unknown (ReadAll_rows broken (row_values r :: rest) todos).
Proof.
  destruct r as [id [title|] [description|] [reminder|]]; cbn;
    try (intros _; eexists; reflexivity).
  destruct (TimestampProto_cases reminder) as [[ts P] | [err P]]; rewrite P.
  - discriminate.
  - intros _. eexists. reflexivity.
Qed.

(** The loop of ReadAll over stored rows: all of them decoded and appended in
    order, or an Unknown status and nothing else. *)
Lemma ReadAll_rows_decode (broken : option string) (rows : list Row) (todos : list Todo.t) :
  match decode_all rows with
  | Some tds =>
      ReadAll_rows broken (map row_values rows) todos
      = Next ({| current := None; pending := []; rows_err := broken |}, (todos ++ tds)%list)
  | None => fails_with Unknown (ReadAll_rows broken (map row_values rows) todos)
  end.
Proof.
  revert todos. induction rows as [|r rest IH]; intros todos.
  - cbn. now rewrite app_nil_r.
  - cbn [decode_all map].
    destruct (decode r) as [td|] eqn:D.
    2:{ now apply ReadAll_rows_undecodable. }
    destruct (decode_scan r td (map row_values rest) broken D)
      as (reminder & ts & Hscan & Hts & Hrem & _ & _).
    specialize (IH (todos ++ [td])%list).
    assert (Step : ReadAll_rows broken (row_values r :: map row_values rest) todos
                   = ReadAll_rows broken (map row_values rest) (todos ++ [td])%list).
    { cbn [ReadAll_rows]. rewrite Hscan, Hts.
      destruct td as [tid ttitle tdesc trem].
      cbn [Todo.Id Todo.Title Todo.Description Todo.Reminder] in *. subst trem.
      reflexivity. }
    rewrite Step.
    destruct (decode_all rest) as [tds|].
    + rewrite IH, <- app_assoc. reflexivity.
    + exact IH.
Qed.

Lemma decode_all_none (rows : list Row) :
  (exists r, In r rows /\ decode r = None) -> decode_all rows = None.
Proof.
  intros (r & Hin & D). induction rows as [|r' rest IH]; [destruct Hin|].
  cbn [decode_all]. destruct Hin as [-> | Hin].
  - rewrite D. reflexivity.
  - rewrite (IH Hin). destruct (decode r'); reflexivity.
Qed.

Lemma decode_all_some (rows : list Row) :
  (forall r, In r rows -> decode r <> None) ->
  exists tds, decode_all rows = Some tds /\ map decode rows = map Some tds.
Proof.
  induction rows as [|r rest IH]; intros H.
  - exists []. split; reflexivity.
  - destruct IH as (tds & E & M); [intros r' Hr'; apply H; now right|].
    destruct (decode r) as [td|] eqn:D; [|exfalso; apply (H r); [now left | exact D]].
    exists (td :: tds). cbn [decode_all map]. rewrite D, E, M. split; reflexivity.
Qed.

Lemma QueryContext_select_all (c : Conn) (w : World) :
  query_fault (faults w) = None ->
  QueryContext c (SelectAll todo_columns) [] w
  = ((Some match cursor_fault (faults w) with
           | Some (n, err) =>
               {| current := None; pending := map row_values (firstn n (table w));
                  rows_err := Some err |}
           | None =>
               {| current := None; pending := map row_values (table w); rows_err := None |}
           end, None),
     log (Queried (SelectAll todo_columns) []) w).
Proof.
  intros Q. unfold QueryContext, engine_query. rewrite Q.
  destruct (cursor_fault (faults w)) as [[n err]|]; [|reflexivity].
  rewrite firstn_map. reflexivity.
Qed.

(** ReadAll past the gate: an Unknown status, or every stored row decoded and
    returned. *)
Lemma ReadAll_outcome (api : string) (w : World) :
  accepted api ->
  fails_with Unknown (fst (ReadAll {| ReadAllRequest.Api := api |} w))
  \/ (exists tds,
        decode_all (table w) = Some tds
        /\ ReadAll {| ReadAllRequest.Api := api |} w
           = (Return (Some {| ReadAllResponse.Api := apiVersion;
                              ReadAllResponse.Todos := tds |}) None,
              after_query (SelectAll todo_columns) [] w)).
Proof.
  intros Hapi.
  unfold ReadAll, bind, call, defer, deref, ret, step. cbn [ReadAllRequest.Api].
  rewrite (checkAPI_accepted api Hapi).
  destruct (conn_fault (faults w)) as [e|] eqn:F.
  { rewrite (connect_down w e F). left. eexists. reflexivity. }
  rewrite (connect_up w F).
  destruct (query_fault (faults w)) as [e|] eqn:Q.
  { unfold QueryContext. cbn [faults log]. rewrite Q. left. eexists. reflexivity. }
  rewrite QueryContext_select_all by exact Q. cbn [faults log table].
  destruct (cursor_fault (faults w)) as [[n e]|] eqn:C; cbn [rows_err pending].
  - left. pose proof (ReadAll_rows_decode (Some e) (firstn n (table w)) []) as L.
    destruct (decode_all (firstn n (table w))) as [tds|].
    + rewrite L. cbn. eexists. reflexivity.
    + destruct L as [msg L]. rewrite L. cbn. eexists. reflexivity.
  - pose proof (ReadAll_rows_decode None (table w) []) as L.
    destruct (decode_all (table w)) as [tds|].
    + right. exists tds. split; [reflexivity|]. rewrite L. reflexivity.
    + left. destruct L as [msg L]. rewrite L. cbn. eexists. reflexivity.
Qed.

(** ReadAll on a healthy world whose rows all decode. *)
Lemma ReadAll_healthy (api : string) (w : World) (tds : list Todo.t) :
  accepted api -> healthy w -> decode_all (table w) = Some tds ->
  ReadAll {| ReadAllRequest.Api := api |} w
  = (Return (Some {| ReadAllResponse.Api := apiVersion;
                     ReadAllResponse.Todos := tds |}) None,
     after_query (SelectAll todo_columns) [] w).
Proof.
  intros Hapi Hw D. pose proof (healthy_pool_up w Hw) as Hup. unfold healthy in Hw.
  unfold ReadAll, bind, call, defer, deref, ret, step. cbn [ReadAllRequest.Api].
  rewrite (checkAPI_accepted api Hapi), (connect_up w Hup).
  rewrite QueryContext_select_all by (cbn; rewrite Hw; reflexivity).
  cbn [faults log table]. rewrite Hw. cbn [cursor_fault no_faults rows_err pending].
  pose proof (ReadAll_rows_decode None (table w) []) as L. rewrite D in L.
  rewrite L. reflexivity.
Qed.

(** C8. ReadAll with the version accepted decodes the stored rows one by one.
    If any stored row fails to decode, the handler returns no response and an
    Unknown status, whatever the pool and the driver do. If pool and driver
    work and every row decodes, the response carries the decoded form of every
    stored row, each exactly once. *)
Theorem C8_read_all (api : string) (w : World) :
  accepted api ->
  ((exists r, In r (table w) /\ decode r = None) ->
   fails_with Unknown (fst (ReadAll {| ReadAllRequest.Api := api |} w)))
  /\ (healthy w -> (forall r, In r (table w) -> decode r <> None) ->
      exists todos,
        fst (ReadAll {| ReadAllRequest.Api := api |} w)
        = Return (Some {| ReadAllResponse.Api := apiVersion;
                          ReadAllResponse.Todos := todos |}) None
        /\ Permutation (map Some todos) (map decode (table w))).
Proof.
  intros Hapi. split.
  - intros Hbad. destruct (ReadAll_outcome api w Hapi) as [U | (tds & D & _)]; [exact U|].
    rewrite (decode_all_none _ Hbad) in D. discriminate.
  - intros Hw Hall. destruct (decode_all_some _ Hall) as (tds & D & M).
    exists tds. rewrite (ReadAll_healthy api w tds Hapi Hw D). split; [reflexivity|].
    rewrite M. apply Permutation_refl.
Qed.

(** ** The version carried by responses *)

(** A deferred call does not change what the function returns. *)
Lemma defer_fst {R A : Type} (cleanup : World -> World) (body : Handler R A) (w : World) :
  fst (defer cleanup body w) = fst (body w).
Proof.
  unfold defer. destruct (body w). reflexivity.
Qed.

Lemma Read_response (req : ReadRequest.t) (w : World) (resp : ReadResponse.t)
    (err : option Status) :
  fst (Read req w) = Return (Some resp) err ->
  ReadResponse.Api resp = apiVersion /\ err = None.
Proof.
  destruct req as [api id].
  unfold Read, bind, call, deref, ret, Rows_Err. cbn [ReadRequest.Api ReadRequest.Id].
  destruct (checkAPI api); [discriminate|].
  destruct (connect w) as [[c [e|]] w1]; [discriminate|].
  rewrite defer_fst.
  destruct c as [c|]; [|discriminate].
  destruct (QueryContext c (SelectWhere todo_columns ColId) [VInt64 id] w1)
    as [[rows [e|]] w2]; [discriminate|].
  rewrite defer_fst.
  destruct rows as [rows|]; [|discriminate].
  destruct (Rows_Next rows) as [[|] rows1]; cbn [negb].
  2:{ destruct (rows_err rows1); discriminate. }
  destruct (Rows_Scan rows1) as [[[[td_Id td_Title] td_Description] reminder] [e|]];
    [discriminate|].
  destruct (ptypes_TimestampProto reminder) as [td_Reminder [e|]]; [discriminate|].
  destruct (Rows_Next rows1) as [[|] rows2]; [discriminate|].
  cbn [fst]. intros H. injection H as <- <-. split; reflexivity.
Qed.

Lemma Delete_response (req : DeleteRequest.t) (w : World) (resp : DeleteResponse.t)
    (err : option Status) :
  fst (Delete req w) = Return (Some resp) err ->
  DeleteResponse.Api resp = apiVersion /\ err = None.
Proof.
  destruct req as [api id].
  unfold Delete, bind, call, defer, deref, ret. cbn [DeleteRequest.Api DeleteRequest.Id].
  destruct (checkAPI api); [discriminate|].
  destruct (connect w) as [[c [e|]] w1]; [discriminate|].
  destruct c as [c|]; [|discriminate].
  destruct (ExecContext c (DeleteWhere ColId) [VInt64 id] w1) as [[res [e|]] w2];
    [discriminate|].
  destruct res as [res|]; [|discriminate].
  destruct (RowsAffected res) as [rows [e|]]; [discriminate|].
  destruct (rows =? 0); [discriminate|].
  cbn [fst]. intros H. injection H as <- <-. split; reflexivity.
Qed.

Lemma ReadAll_response (req : ReadAllRequest.t) (w : World) (resp : ReadAllResponse.t)
    (err : option Status) :
  fst (ReadAll req w) = Return (Some resp) err ->
  ReadAllResponse.Api resp = apiVersion /\ err = None.
Proof.
  destruct req as [api]. intros H.
  destruct (checkAPI_cases api) as [[Hapi G] | [Hapi G]].
  - destruct (ReadAll_outcome api w Hapi) as [[msg U] | (tds & _ & E)].
    + rewrite U in H. discriminate.
    + rewrite E in H. cbn [fst] in H. injection H as <- <-. split; reflexivity.
  - unfold ReadAll in H. cbn [ReadAllRequest.Api] in H. rewrite G in H. discriminate.
Qed.

(** C10. Whenever one of the five operations returns a response, its Api
    field is the constant "v1" and the error beside it is nil; in particular
    a request with the empty version is not answered with the empty
    version. *)
Theorem C10_response_version (w : World) :
  (forall req resp err,
     fst (Create req w) = Return (Some resp) err ->
     CreateResponse.Api resp = "v1" /\ err = None)
  /\ (forall req resp err,
        fst (Read req w) = Return (Some resp) err ->
        ReadResponse.Api resp = "v1" /\ err = None)
  /\ (forall req resp err,
        fst (Update req w) = Return (Some resp) err ->
        UpdateResponse.Api resp = "v1" /\ err = None)
  /\ (forall req resp err,
        fst (Delete req w) = Return (Some resp) err ->
        DeleteResponse.Api resp = "v1" /\ err = None)
  /\ (forall req resp err,
        fst (ReadAll req w) = Return (Some resp) err ->
        ReadAllResponse.Api resp = "v1" /\ err = None).
Proof.
  repeat split.
  - destruct (Create req w) as [f w1] eqn:E. cbn [fst] in H. subst f.
    destruct (Create_response _ _ _ _ _ E) as (_ & _ & _ & A & _). exact A.
  - destruct (Create req w) as [f w1] eqn:E. cbn [fst] in H. subst f.
    destruct (Create_response _ _ _ _ _ E) as (_ & _ & A & _). exact A.
  - now apply (Read_response req w resp err).
  - now apply (Read_response req w resp err).
  - destruct (Update_response req w resp err H) as (_ & _ & _ & A & _). exact A.
  - destruct (Update_response req w resp err H) as (_ & _ & A & _). exact A.
  - now apply (Delete_response req w resp err).
  - now apply (Delete_response req w resp err).
  - now apply (ReadAll_response req w resp err).
  - now apply (ReadAll_response req w resp err).
Qed.

(** ** The worlds a call can leave behind *)

Lemma defer_snd {R A : Type} (cleanup : World -> World) (body : Handler R A) (w : World) :
  snd (defer cleanup body w) = cleanup (snd (body w)).
Proof.
  unfold defer. destruct (body w). reflexivity.
Qed.

(** Create leaves the world as it was (refused at the gate, or no
    connection), or with a connection opened and closed, or with the task's
    row inserted under the counter's value. *)
Lemma Create_world (req : CreateRequest.t) (w : World) :
  snd (Create req w) = w
  \/ snd (Create req w) = Conn_Close (log ConnOpened w)
  \/ exists todo,
       CreateRequest.Todo req = Some todo
       /\ validateTimestamp (Todo.Reminder todo) = None
       /\ has_id (auto_increment w) (table w) = false
       /\ exec_fault (faults w) = None
       /\ snd (Create req w)
          = after_exec (InsertInto [ColTitle; ColDescription; ColReminder])
              [VString (Todo.Title todo); VString (Todo.Description todo);
               VTime (fst (ptypes_Timestamp (Todo.Reminder todo)))]
              (table w ++ [created_row (auto_increment w) todo])%list
              (Z.max (auto_increment w) (auto_increment w + 1)) w.
Proof.
  destruct req as [api todo].
  destruct (checkAPI_cases api) as [[Hapi G] | [Hapi G]].
  2:{ left. unfold Create. cbn [CreateRequest.Api]. rewrite G. reflexivity. }
  destruct (conn_fault (faults w)) as [e|] eqn:F.
  { left. unfold Create, bind, call. cbn [CreateRequest.Api].
    rewrite G, (connect_down w e F). reflexivity. }
  right.
  destruct todo as [todo|].
  2:{ left. unfold Create, bind, call, defer, deref.
      cbn [CreateRequest.Api CreateRequest.Todo]. rewrite G, (connect_up w F). reflexivity. }
  unfold Create, bind, call, defer, deref, ret, ptypes_Timestamp.
  cbn [CreateRequest.Api CreateRequest.Todo fst]. rewrite G, (connect_up w F).
  destruct (validateTimestamp (Todo.Reminder todo)) as [bad|] eqn:V; [left; reflexivity|].
  destruct (exec_fault (faults w)) as [e|] eqn:X.
  { left. rewrite (ExecContext_fault _ _ _ (log ConnOpened w) e X). reflexivity. }
  rewrite ExecContext_insert by exact X. cbn [table auto_increment log faults].
  destruct (has_id (auto_increment w) (table w)) eqn:Hfresh; [left; reflexivity|].
  right. exists todo. repeat (split; [assumption || reflexivity|]).
  unfold LastInsertId. cbn [result_err insert_id].
  destruct (result_fault (faults w)); reflexivity.
Qed.

(** Update leaves the world as it was, or with a connection opened and
    closed, or with the rows of the request's id overwritten. *)
Lemma Update_world (req : UpdateRequest.t) (w : World) :
  snd (Update req w) = w
  \/ snd (Update req w) = Conn_Close (log ConnOpened w)
  \/ exists todo,
       UpdateRequest.Todo req = Some todo
       /\ validateTimestamp (Todo.Reminder todo) = None
       /\ exec_fault (faults w) = None
       /\ snd (Update req w)
          = after_exec (UpdateSetWhere [ColTitle; ColDescription; ColReminder] ColId)
              [VString (Todo.Title todo); VString (Todo.Description todo);
               VTime (fst (ptypes_Timestamp (Todo.Reminder todo))); VInt64 (Todo.Id todo)]
              (overwrite_id (Todo.Id todo) (Todo.Title todo) (Todo.Description todo)
                 (fst (ptypes_Timestamp (Todo.Reminder todo))) (table w))
              (auto_increment w) w.
Proof.
  destruct req as [api todo].
  destruct (checkAPI_cases api) as [[Hapi G] | [Hapi G]].
  2:{ left. unfold Update. cbn [UpdateRequest.Api]. rewrite G. reflexivity. }
  destruct (conn_fault (faults w)) as [e|] eqn:F.
  { left. unfold Update, bind, call. cbn [UpdateRequest.Api].
    rewrite G, (connect_down w e F). reflexivity. }
  right.
  destruct todo as [todo|].
  2:{ left. unfold Update, bind, call, defer, deref.
      cbn [UpdateRequest.Api UpdateRequest.Todo]. rewrite G, (connect_up w F). reflexivity. }
  destruct (validateTimestamp (Todo.Reminder todo)) as [bad|] eqn:V.
  { left. unfold Update, bind, call, defer, deref, ret, ptypes_Timestamp.
    cbn [UpdateRequest.Api UpdateRequest.Todo]. rewrite G, (connect_up w F), V.
    reflexivity. }
  rewrite (Update_run api todo w Hapi F V). cbn zeta.
  destruct (exec_fault (faults w)) eqn:X; [left; reflexivity|].
  right. exists todo. repeat (split; [assumption || reflexivity|]).
  destruct (result_fault (faults w)); reflexivity.
Qed.

(** Delete leaves the world as it was, or with a connection opened and
    closed, or with the rows of the request's id removed. *)
Lemma Delete_world (req : DeleteRequest.t) (w : World) :
  snd (Delete req w) = w
  \/ snd (Delete req w) = Conn_Close (log ConnOpened w)
  \/ (exec_fault (faults w) = None
      /\ snd (Delete req w)
         = after_exec (DeleteWhere ColId) [VInt64 (DeleteRequest.Id req)]
             (filter (fun r => negb (matches ColId (VInt64 (DeleteRequest.Id req)) r))
                (table w))
             (auto_increment w) w).
Proof.
  destruct req as [api id].
  destruct (checkAPI_cases api) as [[Hapi G] | [Hapi G]].
  2:{ left. unfold Delete. cbn [DeleteRequest.Api]. rewrite G. reflexivity. }
  destruct (conn_fault (faults w)) as [e|] eqn:F.
  { left. unfold Delete, bind, call. cbn [DeleteRequest.Api].
    rewrite G, (connect_down w e F). reflexivity. }
  right.
  unfold Delete, bind, call, defer, deref, ret.
  cbn [DeleteRequest.Api DeleteRequest.Id]. rewrite G, (connect_up w F).
  destruct (exec_fault (faults w)) as [e|] eqn:X.
  { left. rewrite (ExecContext_fault _ _ _ (log ConnOpened w) e X). reflexivity. }
  right. split; [reflexivity|].
  rewrite ExecContext_delete by exact X.
  unfold RowsAffected. cbn [result_err affected faults log table auto_increment].
  destruct (result_fault (faults w)); [reflexivity|].
  destruct (_ =? 0); reflexivity.
Qed.

(** Read leaves the world as it was, or with a connection opened and closed,
    or with its query run and cursor and connection closed. *)
Lemma Read_world (req : ReadRequest.t) (w : World) :
  snd (Read req w) = w
  \/ snd (Read req w) = Conn_Close (log ConnOpened w)
  \/ snd (Read req w)
     = after_query (SelectWhere todo_columns ColId) [VInt64 (ReadRequest.Id req)] w.
Proof.
  destruct req as [api id].
  destruct (checkAPI_cases api) as [[Hapi G] | [Hapi G]].
  2:{ left. unfold Read. cbn [ReadRequest.Api]. rewrite G. reflexivity. }
  destruct (conn_fault (faults w)) as [e|] eqn:F.
  { left. unfold Read, bind, call. cbn [ReadRequest.Api].
    rewrite G, (connect_down w e F). reflexivity. }
  right.
  unfold Read, bind, call, deref, ret, Rows_Err.
  cbn [ReadRequest.Api ReadRequest.Id]. rewrite G, (connect_up w F).
  rewrite defer_snd.
  unfold QueryContext, engine_query. cbn [faults log table].
  destruct (query_fault (faults w)); [left; reflexivity|].
  right. rewrite defer_snd. unfold after_query. do 2 f_equal.
  match goal with |- context [Rows_Next ?rows] => generalize rows end.
  intros rows.
  destruct (Rows_Next rows) as [[|] rows1]; cbn [negb].
  2:{ destruct (rows_err rows1); reflexivity. }
  destruct (Rows_Scan rows1) as [[[[td_Id td_Title] td_Description] reminder] [e|]];
    [reflexivity|].
  destruct (ptypes_TimestampProto reminder) as [td_Reminder [e|]]; [reflexivity|].
  destruct (Rows_Next rows1) as [[|] rows2]; reflexivity.
Qed.

(** ReadAll likewise. *)
Lemma ReadAll_world (req : ReadAllRequest.t) (w : World) :
  snd (ReadAll req w) = w
  \/ snd (ReadAll req w) = Conn_Close (log ConnOpened w)
  \/ snd (ReadAll req w) = after_query (SelectAll todo_columns) [] w.
Proof.
  destruct req as [api].
  destruct (checkAPI_cases api) as [[Hapi G] | [Hapi G]].
  2:{ left. unfold ReadAll. cbn [ReadAllRequest.Api]. rewrite G. reflexivity. }
  destruct (conn_fault (faults w)) as [e|] eqn:F.
  { left. unfold ReadAll, bind, call. cbn [ReadAllRequest.Api].
    rewrite G, (connect_down w e F). reflexivity. }
  right.
  unfold ReadAll, bind, call, deref, ret, step, Rows_Err.
  cbn [ReadAllRequest.Api]. rewrite G, (connect_up w F).
  rewrite defer_snd.
  unfold QueryContext, engine_query. cbn [faults log table].
  destruct (query_fault (faults w)); [left; reflexivity|].
  right. rewrite defer_snd. unfold after_query. do 2 f_equal.
  match goal with |- context [ReadAll_rows ?b ?p ?l] => destruct (ReadAll_rows b p l) as [[rows tds]| |] end;
    try reflexivity.
  destruct (rows_err rows); reflexivity.
Qed.

(** ** Connection handling *)

(** X1. When the pool gives no connection, each of the five operations, its
    version accepted, returns no response and an Unknown status whose message
    carries the pool's error, and leaves the world (table, counter, trace) as
    it was, whatever the rest of the request holds. *)
Theorem X1_no_connection (api : string) (w : World) (err : string) :
  accepted api -> conn_fault (faults w) = Some err ->
  let refusal :=
    Some {| code := Unknown; message := "Failed to connect to database -> " ++ err |} in
  (forall todo, Create {| CreateRequest.Api := api; CreateRequest.Todo := todo |} w
                = (Return None refusal, w))
  /\ (forall id, Read {| ReadRequest.Api := api; ReadRequest.Id := id |} w
                 = (Return None refusal, w))
  /\ (forall todo, Update {| UpdateRequest.Api := api; UpdateRequest.Todo := todo |} w
                   = (Return None refusal, w))
  /\ (forall id, Delete {| DeleteRequest.Api := api; DeleteRequest.Id := id |} w
                 = (Return None refusal, w))
  /\ ReadAll {| ReadAllRequest.Api := api |} w = (Return None refusal, w).
Proof.
  intros Hapi F refusal. subst refusal.
  unfold Create, Read, Update, Delete, ReadAll, bind, call.
  cbn [CreateRequest.Api ReadRequest.Api UpdateRequest.Api DeleteRequest.Api
       ReadAllRequest.Api].
  rewrite (checkAPI_accepted api Hapi), (connect_down w err F).
  repeat split; intros; reflexivity.
Qed.

Lemma one_call_same (w : World) : one_call w w.
Proof.
  split; [reflexivity|]. exists []. split; [now rewrite app_nil_r | now left].
Qed.

Lemma one_call_connection (w : World) : one_call w (Conn_Close (log ConnOpened w)).
Proof.
  split; [reflexivity|]. exists [ConnOpened; ConnClosed]. split.
  - cbn. now rewrite <- app_assoc.
  - right. now left.
Qed.

Lemma one_call_exec (stmt : ExecStatement) (args : list Value) (tbl : list Row) (next : Z)
    (w : World) :
  one_call w (after_exec stmt args tbl next w).
Proof.
  split; [reflexivity|]. exists [ConnOpened; Executed stmt args; ConnClosed]. split.
  - cbn. now rewrite <- !app_assoc.
  - right. right. left. now exists stmt, args.
Qed.

Lemma one_call_query (stmt : QueryStatement) (args : list Value) (w : World) :
  one_call w (after_query stmt args w).
Proof.
  split; [reflexivity|]. exists [ConnOpened; Queried stmt args; RowsClosed; ConnClosed]. split.
  - cbn. now rewrite <- !app_assoc.
  - right. right. right. now exists stmt, args.
Qed.

(** X2. Whatever the request and the driver conditions, a call of any of the
    five operations adds to the trace either nothing, or one connection
    opened and closed with at most one statement in between; a query's cursor
    is closed before the connection. No path, a panic included, leaves a
    connection or a cursor open, and none runs two statements. *)
Theorem X2_one_connection_one_statement (w : World) :
  (forall req, one_call w (snd (Create req w)))
  /\ (forall req, one_call w (snd (Read req w)))
  /\ (forall req, one_call w (snd (Update req w)))
  /\ (forall req, one_call w (snd (Delete req w)))
  /\ (forall req, one_call w (snd (ReadAll req w))).
Proof.
  repeat apply conj; intros req.
  - destruct (Create_world req w) as [E | [E | (todo & _ & _ & _ & _ & E)]]; rewrite E.
    + apply one_call_same.
    + apply one_call_connection.
    + apply one_call_exec.
  - destruct (Read_world req w) as [E | [E | E]]; rewrite E.
    + apply one_call_same.
    + apply one_call_connection.
    + apply one_call_query.
  - destruct (Update_world req w) as [E | [E | (todo & _ & _ & _ & E)]]; rewrite E.
    + apply one_call_same.
    + apply one_call_connection.
    + apply one_call_exec.
  - destruct (Delete_world req w) as [E | [E | [_ E]]]; rewrite E.
    + apply one_call_same.
    + apply one_call_connection.
    + apply one_call_exec.
  - destruct (ReadAll_world req w) as [E | [E | E]]; rewrite E.
    + apply one_call_same.
    + apply one_call_connection.
    + apply one_call_query.
Qed.

Lemma wrote_nothing_query (stmt : QueryStatement) (args : list Value) (w : World) :
  wrote_nothing w (after_query stmt args w).
Proof.
  unfold after_query, Conn_Close, Rows_Close.
  repeat (apply wrote_nothing_log; [discriminate|]). apply wrote_nothing_refl.
Qed.

Lemma wrote_nothing_connection (w : World) : wrote_nothing w (Conn_Close (log ConnOpened w)).
Proof.
  unfold Conn_Close. repeat (apply wrote_nothing_log; [discriminate|]).
  apply wrote_nothing_refl.
Qed.

(** X3. Read and ReadAll are read-only: whatever the request and the driver
    conditions, the table and its counter are what they were and no write
    statement is executed. *)
Theorem X3_reads_change_nothing (w : World) :
  (forall req, same_store w (snd (Read req w)) /\ wrote_nothing w (snd (Read req w)))
  /\ (forall req, same_store w (snd (ReadAll req w))
                  /\ wrote_nothing w (snd (ReadAll req w))).
Proof.
  split; intros req.
  - destruct (Read_world req w) as [E | [E | E]]; rewrite E;
      (split; [split; reflexivity|]).
    + apply wrote_nothing_refl.
    + apply wrote_nothing_connection.
    + apply wrote_nothing_query.
  - destruct (ReadAll_world req w) as [E | [E | E]]; rewrite E;
      (split; [split; reflexivity|]).
    + apply wrote_nothing_refl.
    + apply wrote_nothing_connection.
    + apply wrote_nothing_query.
Qed.

(** ** Delete and Create on the table *)

(** Delete once the gate is passed, a connection acquired and the statement
    executed. *)
Lemma Delete_run (api : string) (id : Z) (w : World) :
  accepted api -> pool_up w -> exec_fault (faults w) = None ->
  let kept := filter (fun r => negb (matches ColId (VInt64 id) r)) (table w) in
  let rows := Z.of_nat (Datatypes.length (table w)) - Z.of_nat (Datatypes.length kept) in
  Delete {| DeleteRequest.Api := api; DeleteRequest.Id := id |} w
  = (match result_fault (faults w) with
     | Some err =>
         Return None (Some (status_Error Unknown
                              ("Failed to retrieve rows affected value -> " ++ err)))
     | None =>
         if rows =? 0 then
           Return None (Some {| code := NotFound;
                                message := "Todo with ID = '" ++ itoa id
                                           ++ "' is not found" |})
         else Return (Some {| DeleteResponse.Api := apiVersion;
                              DeleteResponse.Deleted := rows |}) None
     end,
     after_exec (DeleteWhere ColId) [VInt64 id] kept (auto_increment w) w).
Proof.
  intros Hapi Hup X kept rows. subst kept rows.
  unfold Delete, bind, call, defer, deref, ret.
  cbn [DeleteRequest.Api DeleteRequest.Id].
  rewrite (checkAPI_accepted api Hapi), (connect_up w Hup).
  rewrite ExecContext_delete by exact X.
  unfold RowsAffected. cbn [result_err affected faults log table auto_increment].
  destruct (result_fault (faults w)); [reflexivity|].
  destruct (_ =? 0); reflexivity.
Qed.

Lemma removed_count (id : Z) (tbl : list Row) :
  Z.of_nat (Datatypes.length tbl)
  - Z.of_nat (Datatypes.length (filter (fun r => negb (matches ColId (VInt64 id) r)) tbl))
  = Z.of_nat (Datatypes.length (filter (fun r => row_id r =? id) tbl)).
Proof.
  pose proof (filter_length (fun r => row_id r =? id) tbl) as H.
  change (fun r => negb (matches ColId (VInt64 id) r)) with (fun r => negb (row_id r =? id)).
  lia.
Qed.

Lemma has_id_filter_out (id : Z) (tbl : list Row) :
  has_id id (filter (fun r => negb (row_id r =? id)) tbl) = false.
Proof.
  unfold has_id. apply Bool.not_true_iff_false. intros H.
  apply existsb_exists in H as (r & Hin & E).
  apply filter_In in Hin as [_ Hn]. rewrite E in Hn. discriminate.
Qed.

Lemma filter_none_has_id (id : Z) (tbl : list Row) :
  filter (fun r => row_id r =? id) tbl = [] -> has_id id tbl = false.
Proof.
  intros H. unfold has_id. apply Bool.not_true_iff_false. intros E.
  apply existsb_exists in E as (r & Hin & Q).
  assert (In r (filter (fun r => row_id r =? id) tbl)) as Hf
    by (apply filter_In; split; assumption).
  rewrite H in Hf. destruct Hf.
Qed.

(** What a call of Delete that returned a response, or a NotFound status,
    has done. *)
Lemma Delete_effect (req : DeleteRequest.t) (w : World) :
  (forall resp err,
     fst (Delete req w) = Return (Some resp) err ->
     table (snd (Delete req w))
     = filter (fun r => negb (row_id r =? DeleteRequest.Id req)) (table w)
     /\ DeleteResponse.Deleted resp
        = Z.of_nat (Datatypes.length
                      (filter (fun r => row_id r =? DeleteRequest.Id req) (table w)))
     /\ 0 < DeleteResponse.Deleted resp)
  /\ (fails_with NotFound (fst (Delete req w)) ->
      table (snd (Delete req w)) = table w
      /\ has_id (DeleteRequest.Id req) (table w) = false).
Proof.
  destruct req as [api id]. cbn [DeleteRequest.Id].
  destruct (checkAPI_cases api) as [[Hapi G] | [Hapi G]].
  2:{ unfold Delete. cbn [DeleteRequest.Api]. rewrite G.
      split; [discriminate | intros [msg H]; discriminate H]. }
  destruct (conn_fault (faults w)) as [e|] eqn:F.
  { unfold Delete, bind, call. cbn [DeleteRequest.Api]. rewrite G, (connect_down w e F).
    split; [discriminate | intros [msg H]; discriminate H]. }
  destruct (exec_fault (faults w)) as [e|] eqn:X.
  { unfold Delete, bind, call, defer, deref, ret. cbn [DeleteRequest.Api DeleteRequest.Id].
    rewrite G, (connect_up w F), (ExecContext_fault _ _ _ (log ConnOpened w) e X).
    split; [discriminate | intros [msg H]; discriminate H]. }
  rewrite (Delete_run api id w Hapi F X). cbn zeta. cbn [fst snd].
  rewrite removed_count.
  destruct (result_fault (faults w)).
  { split; [discriminate | intros [msg H]; discriminate H]. }
  destruct (Z.of_nat _ =? 0) eqn:Q.
  - split; [discriminate|]. intros _. apply Z.eqb_eq in Q.
    assert (N : filter (fun r => row_id r =? id) (table w) = []).
    { destruct (filter (fun r => row_id r =? id) (table w)); [reflexivity|].
      cbn [Datatypes.length] in Q. lia. }
    split; [|now apply filter_none_has_id].
    cbn. apply delete_absent. intros r Hr E.
    assert (In r (filter (fun r => row_id r =? id) (table w))) as Hf
      by (apply filter_In; split; [exact Hr | now apply Z.eqb_eq]).
    rewrite N in Hf. destruct Hf.
  - split; [|intros [msg H]; discriminate H].
    intros resp err H. injection H as <- <-. cbn [DeleteResponse.Deleted].
    apply Z.eqb_neq in Q. split; [reflexivity|]. split; [reflexivity | lia].
Qed.

(** X4. A Delete that returns a response has removed exactly the rows with
    the request's id and nothing else, and reports their number, which is at
    least 1; a Delete that returns NotFound has left the table as it was, and
    no row had the id. *)
Theorem X4_delete_effect (req : DeleteRequest.t) (w : World) :
  (forall resp err,
     fst (Delete req w) = Return (Some resp) err ->
     table (snd (Delete req w))
     = filter (fun r => negb (row_id r =? DeleteRequest.Id req)) (table w)
     /\ DeleteResponse.Deleted resp
        = Z.of_nat (Datatypes.length
                      (filter (fun r => row_id r =? DeleteRequest.Id req) (table w)))
     /\ 0 < DeleteResponse.Deleted resp)
  /\ (fails_with NotFound (fst (Delete req w)) ->
      table (snd (Delete req w)) = table w
      /\ has_id (DeleteRequest.Id req) (table w) = false).
Proof.
  exact (Delete_effect req w).
Qed.

(** X5. Once a Delete has returned a response for an id, that id is gone:
    on the table it left, with pool and driver working, a Read of the id
    returns NotFound, and so does a second Delete, which changes nothing. *)
Theorem X5_delete_then_gone (api api' : string) (id : Z) (w w2 : World)
    (resp : DeleteResponse.t) (err : option Status) :
  fst (Delete {| DeleteRequest.Api := api; DeleteRequest.Id := id |} w)
  = Return (Some resp) err ->
  accepted api' -> healthy w2 ->
  table w2 = table (snd (Delete {| DeleteRequest.Api := api; DeleteRequest.Id := id |} w)) ->
  fails_with NotFound (fst (Read {| ReadRequest.Api := api'; ReadRequest.Id := id |} w2))
  /\ fails_with NotFound
       (fst (Delete {| DeleteRequest.Api := api'; DeleteRequest.Id := id |} w2))
  /\ table (snd (Delete {| DeleteRequest.Api := api'; DeleteRequest.Id := id |} w2))
     = table w2.
Proof.
  intros Hd Hapi Hw Ht.
  destruct (Delete_effect {| DeleteRequest.Api := api; DeleteRequest.Id := id |} w)
    as [He _].
  destruct (He resp err Hd) as (Et & _ & _). cbn [DeleteRequest.Id] in Et.
  assert (Hgone : has_id id (table w2) = false)
    by (rewrite Ht, Et; apply has_id_filter_out).
  assert (Habsent : forall r, In r (table w2) -> row_id r <> id).
  { intros r Hr E. unfold has_id in Hgone. apply Bool.not_true_iff_false in Hgone.
    apply Hgone, existsb_exists. exists r. split; [exact Hr | now apply Z.eqb_eq]. }
  pose proof (healthy_pool_up w2 Hw) as Hup.
  split; [|split].
  - rewrite (Read_absent api' id w2 Hapi Hw (filter_id_absent _ _ Habsent)).
    eexists. reflexivity.
  - rewrite (Delete_run api' id w2 Hapi Hup) by (rewrite Hw; reflexivity).
    cbn zeta. cbn [fst]. rewrite Hw. cbn [result_fault no_faults].
    rewrite (delete_absent _ _ Habsent), Z.sub_diag. eexists. reflexivity.
  - rewrite (Delete_run api' id w2 Hapi Hup) by (rewrite Hw; reflexivity).
    cbn. apply (delete_absent _ _ Habsent).
Qed.

(** X6. A Create that returns a response has appended exactly one row to
    the table, holding the request's title and description and the reminder
    as the column stores it, under the id the response carries; no row had
    that id before, and the rows already stored are untouched. *)
Theorem X6_create_effect (req : CreateRequest.t) (w : World) (resp : CreateResponse.t)
    (err : option Status) :
  fst (Create req w) = Return (Some resp) err ->
  exists todo,
    CreateRequest.Todo req = Some todo
    /\ table (snd (Create req w))
       = (table w ++ [created_row (CreateResponse.Id resp) todo])%list
    /\ has_id (CreateResponse.Id resp) (table w) = false.
Proof.
  intros H. destruct (Create req w) as [f w1] eqn:E. cbn [fst snd] in *. subst f.
  destruct (Create_response _ _ _ _ _ E) as (todo & Ht & _ & _ & _ & Hfresh & Htbl).
  exists todo. split; [exact Ht|]. split; [exact Htbl | exact Hfresh].
Qed.

(** ** What ReadAll lists *)

Lemma decode_id (r : Row) (td : Todo.t) : decode r = Some td -> Todo.Id td = row_id r.
Proof.
  intros D. destruct (decode_scan r td [] None D) as (_ & _ & _ & _ & _ & E & _).
  exact E.
Qed.

Lemma decode_all_map (rows : list Row) (tds : list Todo.t) :
  decode_all rows = Some tds ->
  map decode rows = map Some tds /\ map Todo.Id tds = map row_id rows.
Proof.
  revert tds. induction rows as [|r rest IH]; intros tds H; cbn [decode_all] in H.
  - injection H as <-. split; reflexivity.
  - destruct (decode r) as [td|] eqn:D; [|discriminate].
    destruct (decode_all rest) as [tds'|]; [|discriminate].
    injection H as <-. destruct (IH tds' eq_refl) as [M I].
    cbn [map]. rewrite D, M, I, (decode_id r td D). split; reflexivity.
Qed.

(** X7. ReadAll never answers with part of the table: whenever it returns a
    response, under any driver conditions, the list holds the decoded form of
    every stored row, one task per row in the order of the table, and the ids
    listed are the stored ids. *)
Theorem X7_read_all_complete (req : ReadAllRequest.t) (w : World)
    (resp : ReadAllResponse.t) (err : option Status) :
  fst (ReadAll req w) = Return (Some resp) err ->
  map Some (ReadAllResponse.Todos resp) = map decode (table w)
  /\ map Todo.Id (ReadAllResponse.Todos resp) = map row_id (table w).
Proof.
  destruct req as [api]. intros H.
  destruct (checkAPI_cases api) as [[Hapi G] | [Hapi G]].
  2:{ unfold ReadAll in H. cbn [ReadAllRequest.Api] in H. rewrite G in H. discriminate. }
  destruct (ReadAll_outcome api w Hapi) as [[msg U] | (tds & D & E)].
  - rewrite U in H. discriminate.
  - rewrite E in H. cbn [fst] in H. injection H as <- <-.
    cbn [ReadAllResponse.Todos]. destruct (decode_all_map _ _ D) as [M I].
    split; [now rewrite M | exact I].
Qed.

(** ** Update, then Read *)

Lemma filter_id_overwrite (id : Z) (title description : string) (reminder : Time)
    (tbl : list Row) :
  filter (matches ColId (VInt64 id)) (overwrite_id id title description reminder tbl)
  = map (overwrite title description reminder) (filter (matches ColId (VInt64 id)) tbl).
Proof.
  induction tbl as [|r rest IH]; [reflexivity|].
  unfold overwrite_id in *. cbn [map filter]. rewrite !matches_id.
  destruct (row_id r =? id) eqn:E.
  - cbn [overwrite row_id]. rewrite E. cbn [map]. now rewrite IH.
  - rewrite E. exact IH.
Qed.

Lemma changed_by_filter (id : Z) (title description : string) (reminder : Time)
    (tbl : list Row) :
  changed_by id title description reminder tbl
  = filter (fun r => negb (Row_eqb r (overwrite title description reminder r)))
      (filter (matches ColId (VInt64 id)) tbl).
Proof.
  induction tbl as [|r rest IH]; [reflexivity|].
  unfold changed_by in *. cbn [filter]. rewrite matches_id.
  destruct (row_id r =? id); cbn [andb filter]; rewrite IH; reflexivity.
Qed.

(** X8. Update of an id that exactly one stored row has, the version
    accepted, the reminder valid and within the stored precision, pool and
    driver working: Update returns a count of 0 or 1, and a Read of the id on
    the table it left returns the task with the title, description and
    reminder of the update. *)
Theorem X8_update_then_read (api api' : string) (todo : Todo.t) (w w2 : World) (r : Row) :
  accepted api -> accepted api' -> healthy w -> healthy w2 ->
  validateTimestamp (Todo.Reminder todo) = None ->
  store_time (fst (ptypes_Timestamp (Todo.Reminder todo)))
  = fst (ptypes_Timestamp (Todo.Reminder todo)) ->
  filter (matches ColId (VInt64 (Todo.Id todo))) (table w) = [r] ->
  table w2
  = table (snd (Update {| UpdateRequest.Api := api; UpdateRequest.Todo := Some todo |} w)) ->
  (exists n,
     fst (Update {| UpdateRequest.Api := api; UpdateRequest.Todo := Some todo |} w)
     = Return (Some {| UpdateResponse.Api := apiVersion; UpdateResponse.Updated := n |}) None
     /\ (n = 0 \/ n = 1))
  /\ fst (Read {| ReadRequest.Api := api'; ReadRequest.Id := Todo.Id todo |} w2)
     = Return (Some {| ReadResponse.Api := apiVersion;
                       ReadResponse.Todo := Some todo |}) None.
Proof.
  intros Hapi Hapi' Hw Hw2 V Hprec Hone Ht.
  pose proof (healthy_pool_up w Hw) as Hup.
  rewrite (Update_run api todo w Hapi Hup V) in *. cbn zeta in *.
  unfold healthy in Hw. rewrite Hw in *. cbn [exec_fault result_fault no_faults fst snd] in *.
  split.
  - eexists. split; [reflexivity|].
    rewrite changed_by_filter, Hone. cbn [filter].
    destruct (negb _); cbn; auto.
  - cbn [table Conn_Close log] in Ht.
    destruct (Todo.Reminder todo) as [ts|] eqn:R; [|discriminate V].
    erewrite (Read_found api' (Todo.Id todo) w2 _ [] _ Hapi' Hw2).
    + reflexivity.
    + rewrite Ht, filter_id_overwrite, Hone. reflexivity.
    + unfold decode, overwrite. cbn [row_id row_title row_description row_reminder].
      rewrite Hprec, (TimestampProto_Timestamp ts V).
      assert (Hid : row_id r = Todo.Id todo).
      { assert (In r (filter (matches ColId (VInt64 (Todo.Id todo))) (table w))) as Hin
          by (rewrite Hone; now left).
        apply filter_In in Hin as [_ M]. rewrite matches_id in M. now apply Z.eqb_eq. }
      rewrite Hid. destruct todo as [tid tt tdsc trem].
      cbn [Todo.Id Todo.Title Todo.Description Todo.Reminder] in *. subst trem. reflexivity.
Qed.

(** ** Requests without a task, rows with NULL columns *)

(** X9. A Create or Update request that carries no task (a nil Todo), its
    version accepted and a connection acquired, makes the handler panic on
    the nil pointer; the connection is still closed and nothing is written. *)
Theorem X9_nil_todo_panics (api : string) (w : World) :
  accepted api -> pool_up w ->
  Create {| CreateRequest.Api := api; CreateRequest.Todo := None |} w
  = (Panic nil_dereference, Conn_Close (log ConnOpened w))
  /\ Update {| UpdateRequest.Api := api; UpdateRequest.Todo := None |} w
     = (Panic nil_dereference, Conn_Close (log ConnOpened w)).
Proof.
  intros Hapi Hup.
  unfold Create, Update, bind, call, defer, deref.
  cbn [CreateRequest.Api CreateRequest.Todo UpdateRequest.Api UpdateRequest.Todo].
  rewrite (checkAPI_accepted api Hapi), (connect_up w Hup). split; reflexivity.
Qed.

Lemma scan_null (r : Row) (rest : list (list Value)) (broken : option string) :
  row_title r = None \/ row_description r = None \/ row_reminder r = None ->
  exists partial err,
    Rows_Scan {| current := Some (row_values r); pending := rest; rows_err := broken |}
    = (partial, Some err).
Proof.
  destruct r as [id [title|] [description|] [reminder|]]; cbn;
    intros [H | [H | H]]; try discriminate H; eexists; eexists; reflexivity.
Qed.

(** X10. Read of an id whose first matching row holds NULL in its title,
    description or reminder, the version accepted and pool and driver
    working, returns an Unknown status saying that multiple rows were found
    for the id, also when that row is the only one with the id. *)
Theorem X10_read_null_column (api : string) (id : Z) (w : World) (r : Row)
    (more : list Row) :
  accepted api -> healthy w ->
  filter (matches ColId (VInt64 id)) (table w) = r :: more ->
  row_title r = None \/ row_description r = None \/ row_reminder r = None ->
  fst (Read {| ReadRequest.Api := api; ReadRequest.Id := id |} w)
  = Return None
      (Some {| code := Unknown;
               message := "Found multiple Todo rows with ID='" ++ itoa id ++ "'" |}).
Proof.
  intros Hapi Hw Hsel Hnull. pose proof (healthy_pool_up w Hw) as Hup. unfold healthy in Hw.
  unfold Read, bind, call, deref, ret.
  cbn [ReadRequest.Api ReadRequest.Id].
  rewrite (checkAPI_accepted api Hapi), (connect_up w Hup), defer_fst.
  rewrite QueryContext_select_id by (cbn; rewrite Hw; reflexivity).
  rewrite defer_fst. cbn [table log]. rewrite Hsel. cbn [map].
  unfold Rows_Next at 1. cbn [pending rows_err negb].
  destruct (scan_null r (map row_values more) None Hnull) as ([[[a b] c] d] & e & S).
  rewrite S. reflexivity.
Qed.

(** ** Errors after the statement *)

(** X11. When the statement has been executed and the driver then fails to
    report its insert id or affected-row count, Create, Update and Delete
    return an Unknown status although the table has been written: the row is
    inserted, overwritten or removed all the same. *)
Theorem X11_error_after_write (api : string) (todo : Todo.t) (w : World) (err : string) :
  accepted api -> pool_up w -> exec_fault (faults w) = None ->
  result_fault (faults w) = Some err ->
  validateTimestamp (Todo.Reminder todo) = None ->
  has_id (auto_increment w) (table w) = false ->
  let create := Create {| CreateRequest.Api := api; CreateRequest.Todo := Some todo |} w in
  let update := Update {| UpdateRequest.Api := api; UpdateRequest.Todo := Some todo |} w in
  let delete := Delete {| DeleteRequest.Api := api; DeleteRequest.Id := Todo.Id todo |} w in
  (fails_with Unknown (fst create)
   /\ table (snd create) = (table w ++ [created_row (auto_increment w) todo])%list)
  /\ (fails_with Unknown (fst update)
      /\ table (snd update)
         = overwrite_id (Todo.Id todo) (Todo.Title todo) (Todo.Description todo)
             (fst (ptypes_Timestamp (Todo.Reminder todo))) (table w))
  /\ (fails_with Unknown (fst delete)
      /\ table (snd delete)
         = filter (fun r => negb (row_id r =? Todo.Id todo)) (table w)).
Proof.
  intros Hapi Hup X RF V Hfresh create update delete. subst create update delete.
  split; [|split].
  - unfold Create, bind, call, defer, deref, ret, ptypes_Timestamp.
    cbn [CreateRequest.Api CreateRequest.Todo fst].
    rewrite (checkAPI_accepted api Hapi), (connect_up w Hup), V.
    rewrite ExecContext_insert by exact X. cbn [table auto_increment log faults].
    rewrite Hfresh. unfold LastInsertId. cbn [result_err insert_id]. rewrite RF.
    split; [eexists; reflexivity | reflexivity].
  - rewrite (Update_run api todo w Hapi Hup V). cbn zeta. rewrite X, RF.
    split; [eexists; reflexivity | reflexivity].
  - rewrite (Delete_run api (Todo.Id todo) w Hapi Hup X). cbn zeta. rewrite RF.
    split; [eexists; reflexivity | reflexivity].
Qed.

(** ** Unique ids *)

Lemma has_id_ids (id : Z) (a b : list Row) :
  map row_id a = map row_id b -> has_id id a = has_id id b.
Proof.
  unfold has_id. revert b.
  induction a as [|x a IH]; intros [|y b] H; try discriminate; [reflexivity|].
  cbn in H. injection H as Hx Hr. cbn [existsb]. rewrite Hx, (IH b Hr). reflexivity.
Qed.

Lemma unique_ids_ids (a b : list Row) :
  map row_id a = map row_id b -> unique_ids a = unique_ids b.
Proof.
  revert b. induction a as [|x a IH]; intros [|y b] H; try discriminate; [reflexivity|].
  cbn in H. injection H as Hx Hr. cbn [unique_ids].
  rewrite Hx, (has_id_ids (row_id y) a b Hr), (IH b Hr). reflexivity.
Qed.

Lemma has_id_filter (id : Z) (f : Row -> bool) (tbl : list Row) :
  has_id id tbl = false -> has_id id (filter f tbl) = false.
Proof.
  unfold has_id. intros H. apply Bool.not_true_iff_false. intros E.
  apply Bool.not_true_iff_false in H. apply H.
  apply existsb_exists in E as (r & Hin & Q). apply filter_In in Hin as [Hin _].
  apply existsb_exists. now exists r.
Qed.

Lemma unique_ids_filter (f : Row -> bool) (tbl : list Row) :
  unique_ids tbl = true -> unique_ids (filter f tbl) = true.
Proof.
  induction tbl as [|r rest IH]; [reflexivity|].
  cbn [unique_ids filter]. intros H. apply andb_true_iff in H as [Hr Hu].
  destruct (f r); [|now apply IH].
  cbn [unique_ids]. apply andb_true_iff. split; [|now apply IH].
  apply negb_true_iff. apply negb_true_iff in Hr. now apply has_id_filter.
Qed.

Lemma has_id_app (id : Z) (a b : list Row) :
  has_id id (a ++ b) = has_id id a || has_id id b.
Proof. unfold has_id. apply existsb_app. Qed.

Lemma unique_ids_snoc (tbl : list Row) (r : Row) :
  unique_ids tbl = true -> has_id (row_id r) tbl = false ->
  unique_ids (tbl ++ [r]) = true.
Proof.
  induction tbl as [|x rest IH]; [reflexivity|].
  cbn [unique_ids app has_id existsb]. intros H Hf.
  apply andb_true_iff in H as [Hx Hu]. apply orb_false_iff in Hf as [Hxr Hf].
  apply andb_true_iff. split; [|now apply IH].
  apply negb_true_iff. apply negb_true_iff in Hx.
  rewrite has_id_app, Hx. cbn. rewrite Z.eqb_sym, Hxr. reflexivity.
Qed.

Lemma unique_ids_select (id : Z) (tbl : list Row) :
  unique_ids tbl = true ->
  (Datatypes.length (filter (matches ColId (VInt64 id)) tbl) <= 1)%nat.
Proof.
  induction tbl as [|r rest IH]; [cbn; lia|].
  cbn [unique_ids filter]. intros H. apply andb_true_iff in H as [Hr Hu].
  rewrite matches_id. destruct (row_id r =? id) eqn:E; [|now apply IH].
  apply Z.eqb_eq in E. subst id. apply negb_true_iff in Hr.
  rewrite (filter_id_fresh _ _ Hr). cbn. lia.
Qed.

(** Each call keeps the stored ids distinct. *)
Lemma serve_unique_ids (c : Call) (w : World) :
  unique_ids (table w) = true -> unique_ids (table (serve c w)) = true.
Proof.
  intros U. destruct c as [req | req | req | req | req]; cbn [serve].
  - destruct (Create_world req w) as [E | [E | (todo & _ & _ & Hfresh & _ & E)]];
      rewrite E; try exact U.
    cbn. apply unique_ids_snoc; [exact U | exact Hfresh].
  - destruct (Read_world req w) as [E | [E | E]]; rewrite E; exact U.
  - destruct (Update_world req w) as [E | [E | (todo & _ & _ & _ & E)]];
      rewrite E; try exact U.
    cbn. rewrite (unique_ids_ids _ (table w)); [exact U | apply overwrite_id_ids].
  - destruct (Delete_world req w) as [E | [E | [_ E]]]; rewrite E; try exact U.
    cbn. now apply unique_ids_filter.
  - destruct (ReadAll_world req w) as [E | [E | E]]; rewrite E; exact U.
Qed.

(** Read returns neither a response nor an error only past a second row. *)
Lemma Read_nil_nil (req : ReadRequest.t) (w : World) :
  fst (Read req w) = Return None None ->
  (2 <= Datatypes.length (filter (matches ColId (VInt64 (ReadRequest.Id req))) (table w)))%nat.
Proof.
  destruct req as [api id].
  unfold Read, bind, call, deref, ret, Rows_Err. cbn [ReadRequest.Api ReadRequest.Id].
  destruct (checkAPI api); [discriminate|].
  destruct (conn_fault (faults w)) as [e|] eqn:F.
  { rewrite (connect_down w e F). discriminate. }
  rewrite (connect_up w F), defer_fst.
  unfold QueryContext, engine_query. cbn [faults log table].
  destruct (query_fault (faults w)); [discriminate|].
  rewrite defer_fst.
  set (found := filter (matches ColId (VInt64 id)) (table w)).
  match goal with
  | |- context [Rows_Next ?c] =>
      assert (Hle : (Datatypes.length (pending c) <= Datatypes.length found)%nat);
      [|generalize dependent c; intros rows Hle]
  end.
  { destruct (cursor_fault (faults w)) as [[n e]|]; cbn [pending].
    - rewrite length_firstn, length_map. lia.
    - rewrite length_map. lia. }
  unfold Rows_Next.
  destruct (pending rows) as [|r1 rest1] eqn:P; cbn [negb].
  { destruct (rows_err rows); discriminate. }
  match goal with
  | |- context [Rows_Scan ?c] =>
      destruct (Rows_Scan c) as [[[[td_Id td_Title] td_Description] reminder] [e|]]
  end; [discriminate|].
  destruct (ptypes_TimestampProto reminder) as [td_Reminder [e|]]; [discriminate|].
  cbn [pending]. destruct rest1 as [|r2 rest2]; [discriminate|].
  intros _. cbn [Datatypes.length] in Hle. lia.
Qed.


(** X12. Distinct ids are an invariant of the service: from a table whose
    ids are distinct, any sequence of calls of the five operations, under any
    driver conditions, leaves a table whose ids are distinct; and on such a
    table no Read, under any driver conditions, returns a nil response
    together with a nil error. *)
Theorem X12_unique_ids_invariant (calls : list (Faults * Call)) (w : World) :
  unique_ids (table w) = true ->
  unique_ids (table (serve_all calls w)) = true
  /\ forall f req,
       fst (Read req (with_faults f (serve_all calls w))) <> Return None None.
Proof.
  intros U.
  assert (Inv : unique_ids (table (serve_all calls w)) = true).
  { revert w U. unfold serve_all.
    induction calls as [|[f c] rest IH]; intros w U; [exact U|].
    cbn [fold_left fst snd]. apply IH. apply serve_unique_ids. exact U. }
  split; [exact Inv|].
  intros f req H. apply Read_nil_nil in H. cbn [with_faults table] in H.
  pose proof (unique_ids_select (ReadRequest.Id req) _ Inv). lia.
Qed.

(** ** Cursors that break *)

(** X17. Read looks at the cursor's error only when there is no first row.
    When the cursor breaks before the first row, Read returns an Unknown
    status; when it breaks after one or more rows and the first row decodes,
    Read returns that row's task with no error. ReadAll, under the same
    conditions, always returns an Unknown status. *)
Theorem X17_broken_cursor (api : string) (id : Z) (w : World) (n : nat) (err : string) :
  accepted api -> pool_up w -> query_fault (faults w) = None ->
  cursor_fault (faults w) = Some (n, err) ->
  (n = 0%nat ->
   fst (Read {| ReadRequest.Api := api; ReadRequest.Id := id |} w)
   = Return None
       (Some {| code := Unknown;
                message := "failed to retrieve data from Todo -> " ++ err |}))
  /\ (forall r more td,
        (0 < n)%nat ->
        filter (matches ColId (VInt64 id)) (table w) = r :: more ->
        decode r = Some td ->
        fst (Read {| ReadRequest.Api := api; ReadRequest.Id := id |} w)
        = match firstn (n - 1) more with
          | [] => Return (Some {| ReadResponse.Api := apiVersion;
                                  ReadResponse.Todo := Some td |}) None
          | _ :: _ => Return None None
          end)
  /\ fails_with Unknown (fst (ReadAll {| ReadAllRequest.Api := api |} w)).
Proof.
  intros Hapi Hup Q C. split; [|split].
  - intros ->.
    unfold Read, bind, call, deref, ret. cbn [ReadRequest.Api ReadRequest.Id].
    rewrite (checkAPI_accepted api Hapi), (connect_up w Hup), defer_fst.
    unfold QueryContext, engine_query. cbn [faults log table]. rewrite Q, C.
    rewrite defer_fst. reflexivity.
  - intros r more td Hn Hsel D.
    destruct n as [|n']; [lia|]. replace (S n' - 1)%nat with n' by lia.
    unfold Read, bind, call, deref, ret. cbn [ReadRequest.Api ReadRequest.Id].
    rewrite (checkAPI_accepted api Hapi), (connect_up w Hup), defer_fst.
    unfold QueryContext, engine_query. cbn [faults log table]. rewrite Q, C.
    rewrite defer_fst. rewrite Hsel. cbn [map firstn].
    change (map (fun r0 : Row => map (fun c : Column => column c r0) todo_columns) more)
      with (map row_values more).
    change (map (fun c : Column => column c r) todo_columns) with (row_values r).
    unfold Rows_Next at 1. cbn [pending rows_err negb].
    destruct (decode_scan r td (firstn n' (map row_values more)) (Some err) D)
      as (reminder & ts & Hscan & Hts & Hrem & _ & _).
    rewrite Hscan, Hts.
    destruct td as [tid ttitle tdesc trem].
    cbn [Todo.Id Todo.Title Todo.Description Todo.Reminder] in *. subst trem.
    unfold Rows_Next. cbn [pending]. rewrite firstn_map.
    destruct (firstn n' more); reflexivity.
  - unfold ReadAll, bind, call, deref, ret, step, Rows_Err. cbn [ReadAllRequest.Api].
    rewrite (checkAPI_accepted api Hapi), (connect_up w Hup), defer_fst.
    rewrite QueryContext_select_all by exact Q. cbn [faults log table]. rewrite C.
    rewrite defer_fst. cbn [rows_err pending].
    pose proof (ReadAll_rows_decode (Some err) (firstn n (table w)) []) as L.
    destruct (decode_all (firstn n (table w))) as [tds|].
    + rewrite L. cbn. eexists. reflexivity.
    + destruct L as [msg L]. rewrite L. cbn. eexists. reflexivity.
Qed.

End Service.

(** ** The statements at sample inputs

    The engine keeps whole seconds in the first runs and every digit in the
    others; timestamps and scan errors are rendered plainly. *)

(** A Read asking for "v2" is refused before anything happens. *)
Lemma C1_version_gate_witness :
  "v2" <> "" /\ "v2" <> "v1"
  /\ Read plain_text plain_scan_error
       {| ReadRequest.Api := "v2"; ReadRequest.Id := 1 |} one_row_world
     = (Return None
          (Some {| code := Unimplemented;
                   message := "Unsupported API version: service implements API version 'v1', but asked for 'v2'" |}),
        one_row_world).
Proof.
  split; [discriminate|]. split; [discriminate|].
  destruct (C1_version_gate whole_seconds plain_text plain_scan_error "v2" one_row_world)
    as [_ H].
  destruct H as (_ & _ & H & _); [discriminate | discriminate |].
  exact (H 1).
Defined.

(** Update and Delete of the absent id 5 on a table holding id 1. *)
Lemma C2_absent_id_witness :
  (exists w',
     Update whole_seconds plain_text
       {| UpdateRequest.Api := "v1"; UpdateRequest.Todo := Some buy_milk |} one_row_world
     = (Return (Some {| UpdateResponse.Api := "v1"; UpdateResponse.Updated := 0 |}) None, w')
     /\ table w' = table one_row_world)
  /\ (exists w',
        Delete whole_seconds
          {| DeleteRequest.Api := "v1"; DeleteRequest.Id := 5 |} one_row_world
        = (Return None
             (Some {| code := NotFound; message := "Todo with ID = '5' is not found" |}), w')
        /\ table w' = table one_row_world).
Proof.
  apply (C2_absent_id whole_seconds plain_text "v1" buy_milk one_row_world).
  - right. reflexivity.
  - reflexivity.
  - reflexivity.
  - intros r [<- | []]. discriminate.
Defined.

(** Read of the id 7 on a table holding it twice. *)
Lemma C3_read_duplicate_id_witness :
  fst (Read plain_text plain_scan_error
         {| ReadRequest.Api := "v1"; ReadRequest.Id := 7 |} duplicate_world)
  = Return None None.
Proof.
  apply (C3_read_duplicate_id plain_text plain_scan_error "v1" 7 duplicate_world
           (milk_row 7) (milk_row 7) []).
  - right. reflexivity.
  - reflexivity.
  - reflexivity.
  - discriminate.
Defined.

(** Update when the driver reports a lock timeout for the statement. *)
Lemma C4_update_write_failure_witness :
  Update exact_precision plain_text
    {| UpdateRequest.Api := "v1"; UpdateRequest.Todo := Some buy_milk |} write_failing_world
  = (Panic "runtime error: invalid memory address or nil pointer dereference",
     Conn_Close (log ConnOpened write_failing_world))
  /\ fails_with Unknown
       (fst (Create exact_precision plain_text
               {| CreateRequest.Api := "v1"; CreateRequest.Todo := Some buy_milk |}
               write_failing_world))
  /\ forall id,
       fails_with Unknown
         (fst (Delete exact_precision
                 {| DeleteRequest.Api := "v1"; DeleteRequest.Id := id |} write_failing_world)).
Proof.
  apply (C4_update_write_failure exact_precision plain_text "v1" buy_milk write_failing_world
           "Error 1205: Lock wait timeout exceeded").
  - right. reflexivity.
  - reflexivity.
  - reflexivity.
  - reflexivity.
Defined.

(** Read of the id 7 on an empty table. *)
Lemma C5_read_absent_id_witness :
  exists w',
    Read plain_text plain_scan_error
      {| ReadRequest.Api := "v1"; ReadRequest.Id := 7 |} empty_world
    = (Return None
         (Some {| code := NotFound;
                  message := "Todo with ID='%!d(MISSING)' is not found" |}), w')
    /\ Contains "Todo with ID='%!d(MISSING)' is not found" "7" = false
    /\ table w' = table empty_world.
Proof.
  apply (C5_read_absent_id plain_text plain_scan_error "v1" 7 empty_world).
  - right. reflexivity.
  - reflexivity.
  - intros r [].
Defined.

(** C6 as first stated fails: with no connection to be had, a Create with a
    malformed reminder and an accepted version returns Unknown, not
    InvalidArgument. *)
Lemma C6_counterexample :
  accepted "v1"
  /\ validateTimestamp plain_text (Todo.Reminder bad_reminder) <> None
  /\ fst (Create exact_precision plain_text
            {| CreateRequest.Api := "v1"; CreateRequest.Todo := Some bad_reminder |}
            pool_down_world)
     = Return None
         (Some {| code := Unknown;
                  message := "Failed to connect to database -> dial tcp 127.0.0.1:3306: connect: connection refused" |})
  /\ ~ fails_with InvalidArgument
         (fst (Create exact_precision plain_text
                 {| CreateRequest.Api := "v1"; CreateRequest.Todo := Some bad_reminder |}
                 pool_down_world)).
Proof.
  split; [right; reflexivity|]. split; [discriminate|]. split; [reflexivity|].
  intros [msg H]. discriminate H.
Defined.

(** Create and Update with a nanosecond count of 1e9, a connection at hand. *)
Lemma C6_malformed_reminder_witness :
  fails_with InvalidArgument
    (fst (Create exact_precision plain_text
            {| CreateRequest.Api := "v1"; CreateRequest.Todo := Some bad_reminder |}
            one_row_world))
  /\ fails_with InvalidArgument
       (fst (Update exact_precision plain_text
               {| UpdateRequest.Api := "v1"; UpdateRequest.Todo := Some bad_reminder |}
               one_row_world))
  /\ table (snd (Update exact_precision plain_text
                   {| UpdateRequest.Api := "v1"; UpdateRequest.Todo := Some bad_reminder |}
                   one_row_world))
     = table one_row_world.
Proof.
  destruct (C6_malformed_reminder exact_precision plain_text "v1" bad_reminder one_row_world)
    as (Hup & _ & _ & _ & [Hsame _] & _).
  - right. reflexivity.
  - discriminate.
  - destruct Hup as [Hc Hu]; [reflexivity|].
    split; [exact Hc|]. split; [exact Hu | exact Hsame].
Defined.

(** Create of "buy milk" on the empty table, then Read of the id 1 it
    returned, with the empty version. *)
Lemma C7_create_then_read_witness :
  exists w3,
    Read plain_text plain_scan_error
      {| ReadRequest.Api := ""; ReadRequest.Id := 1 |}
      (snd (Create whole_seconds plain_text
              {| CreateRequest.Api := "v1"; CreateRequest.Todo := Some buy_milk |}
              empty_world))
    = (Return (Some {| ReadResponse.Api := "v1";
                       ReadResponse.Todo :=
                         Some {| Todo.Id := 1; Todo.Title := "buy milk";
                                 Todo.Description := "2%";
                                 Todo.Reminder := Some new_year_2024 |} |}) None, w3).
Proof.
  apply (C7_create_then_read whole_seconds plain_text plain_scan_error "v1" "" buy_milk
           empty_world
           (snd (Create whole_seconds plain_text
                   {| CreateRequest.Api := "v1"; CreateRequest.Todo := Some buy_milk |}
                   empty_world))
           (snd (Create whole_seconds plain_text
                   {| CreateRequest.Api := "v1"; CreateRequest.Todo := Some buy_milk |}
                   empty_world))
           {| CreateResponse.Api := "v1"; CreateResponse.Id := 1 |}).
  - reflexivity.
  - reflexivity.
  - left. reflexivity.
  - reflexivity.
  - reflexivity.
Defined.

(** ReadAll on a table with a NULL reminder, and on a table that decodes. *)
Lemma C8_read_all_witness :
  fails_with Unknown
    (fst (ReadAll plain_text plain_scan_error {| ReadAllRequest.Api := "" |}
            null_reminder_world))
  /\ exists todos,
       fst (ReadAll plain_text plain_scan_error {| ReadAllRequest.Api := "" |} one_row_world)
       = Return (Some {| ReadAllResponse.Api := "v1"; ReadAllResponse.Todos := todos |}) None
       /\ Permutation (map Some todos) (map (decode plain_text) (table one_row_world)).
Proof.
  split.
  - destruct (C8_read_all plain_text plain_scan_error "" null_reminder_world) as [H _].
    + left. reflexivity.
    + apply H. eexists. split; [right; left; reflexivity | reflexivity].
  - destruct (C8_read_all plain_text plain_scan_error "" one_row_world) as [_ H].
    + left. reflexivity.
    + apply H; [reflexivity|]. intros r [<- | []]. discriminate.
Defined.

(** Update of the stored id 1 with a new title. *)
Lemma C9_update_in_place_witness :
  table (snd (Update whole_seconds plain_text
                {| UpdateRequest.Api := "v1";
                   UpdateRequest.Todo :=
                     Some {| Todo.Id := 1; Todo.Title := "buy oat milk";
                             Todo.Description := "1l";
                             Todo.Reminder := Some new_year_2024 |} |}
                null_reminder_world))
  = [ {| row_id := 1; row_title := Some "buy oat milk"; row_description := Some "1l";
         row_reminder := Some {| unix := 1704067200; nanosecond := 0 |} |};
      {| row_id := 2; row_title := Some "call home";
         row_description := Some ""; row_reminder := None |} ].
Proof.
  destruct (C9_update_in_place whole_seconds plain_text
              {| UpdateRequest.Api := "v1";
                 UpdateRequest.Todo :=
                   Some {| Todo.Id := 1; Todo.Title := "buy oat milk";
                           Todo.Description := "1l";
                           Todo.Reminder := Some new_year_2024 |} |}
              null_reminder_world) as (_ & _ & _ & H).
  destruct (H {| UpdateResponse.Api := "v1"; UpdateResponse.Updated := 1 |} None)
    as (todo & E & T); [reflexivity|].
  injection E as <-. rewrite T. reflexivity.
Defined.

(** Create with the empty version answers with "v1". *)
Lemma C10_response_version_witness :
  fst (Create exact_precision plain_text
         {| CreateRequest.Api := ""; CreateRequest.Todo := Some buy_milk |} empty_world)
  = Return (Some {| CreateResponse.Api := "v1"; CreateResponse.Id := 1 |}) None
  /\ CreateResponse.Api {| CreateResponse.Api := "v1"; CreateResponse.Id := 1 |} = "v1".
Proof.
  split; [reflexivity|].
  destruct (C10_response_version exact_precision plain_text plain_scan_error empty_world)
    as (H & _).
  apply (H {| CreateRequest.Api := ""; CreateRequest.Todo := Some buy_milk |}
           {| CreateResponse.Api := "v1"; CreateResponse.Id := 1 |} None).
  reflexivity.
Defined.

(** ** The logger and the start of the server *)

Lemma append_empty (s : string) : s ++ "" = s.
Proof.
  induction s as [|c s IH]; [reflexivity|]. cbn. now rewrite IH.
Qed.

Lemma Init_returns_nil (lvl : Z) (timeFormat : string) (s : LoggerState) :
  fst (Init lvl timeFormat s) = None.
Proof.
  unfold Init. destruct (onceInit s); [reflexivity|].
  destruct (negb _); reflexivity.
Qed.

(** X13. [Init] never returns an error, and only its first call configures
    the logger: a later call, whatever level and time format it is given,
    returns nil and changes nothing. *)
Theorem X13_init_once (lvl lvl' : Z) (timeFormat timeFormat' : string) (s : LoggerState) :
  fst (Init lvl timeFormat s) = None
  /\ Init lvl' timeFormat' (snd (Init lvl timeFormat s))
     = (None, snd (Init lvl timeFormat s)).
Proof.
  unfold Init. destruct (onceInit s) eqn:O; cbn [fst snd].
  - rewrite O. split; reflexivity.
  - destruct (negb (0 <? String.length timeFormat)%nat); cbn [fst snd];
      split; reflexivity.
Qed.

(** X14. With the logger the first call of [Init] builds, an entry reaches
    standard output exactly when it reaches standard error: both when its
    level is at least the configured one (as an int8) and below Error,
    neither otherwise. Nothing at level Error or above is written. *)
Theorem X14_logger_levels (lvl : Z) (timeFormat : string) (s s' : LoggerState) (e : Entry) :
  onceInit s = false ->
  exists l,
    Log (snd (Init lvl timeFormat s)) = Some l
    /\ (to_Level lvl <= entry_level e < ErrorLevel ->
        Stdout (Logger_write l e s') = (Stdout s' ++ [e])%list
        /\ Stderr (Logger_write l e s') = (Stderr s' ++ [e])%list)
    /\ (entry_level e < to_Level lvl \/ ErrorLevel <= entry_level e ->
        Logger_write l e s' = s').
Proof.
  intros O. unfold Init. rewrite O.
  exists {| globalLevel := to_Level lvl;
            custom_time := (0 <? String.length timeFormat)%nat |}.
  split; [destruct (negb _); reflexivity|].
  unfold Logger_write, highPriority, lowPriority, core_write. cbn [globalLevel].
  split.
  - intros [H1 H2].
    replace (to_Level lvl <=? entry_level e) with true by (symmetry; apply Z.leb_le; lia).
    replace (entry_level e <? ErrorLevel) with true by (symmetry; apply Z.ltb_lt; lia).
    split; reflexivity.
  - intros H.
    assert (E : (to_Level lvl <=? entry_level e) && (entry_level e <? ErrorLevel) = false).
    { apply andb_false_iff. destruct H as [H | H].
      - left. apply Z.leb_gt. lia.
      - right. apply Z.ltb_ge. lia. }
    rewrite E. destruct s'. reflexivity.
Qed.

(** X15. [RunServer] refuses an empty gRPC port, and next an empty HTTP
    port, before the logger is initialised or the database opened; the port
    printed in either message is the empty one. *)
Theorem X15_empty_ports (cfg : Config.t) (h : Host) :
  (Config.GRPCPort cfg = "" ->
   RunServer cfg h = (Some "invalid TCP port for gRPC server: ''", h))
  /\ (Config.GRPCPort cfg <> "" -> Config.HTTPPort cfg = "" ->
      RunServer cfg h = (Some "invalid TCP port for HTTP gateway: ''", h)).
Proof.
  unfold RunServer. split.
  - intros ->. reflexivity.
  - intros Hg ->. destruct (Config.GRPCPort cfg) as [|c rest]; [congruence|]. reflexivity.
Qed.

(** X16. With both ports given, [RunServer] initialises the logger and never
    returns a logger error; it opens the database under the data source name
    user:password@tcp(host)/schema?parseTime=true; if that fails it returns
    the error with nothing started, otherwise the gateway and the gRPC server
    are started, the database is closed at the end, and the result is the one
    of the gRPC server. *)
Theorem X16_startup (cfg : Config.t) (h : Host) :
  Config.GRPCPort cfg <> "" -> Config.HTTPPort cfg <> "" ->
  let dsn := Config.DatastoreDBUser cfg ++ ":" ++ Config.DatastoreDBPassword cfg
             ++ "@tcp(" ++ Config.DatastoreDBHost cfg ++ ")/"
             ++ Config.DatastoreDBSchema cfg ++ "?parseTime=true" in
  onceInit (host_logger (snd (RunServer cfg h))) = true
  /\ (forall err,
        open_fault h dsn = Some err ->
        fst (RunServer cfg h) = Some ("Failed to open database: " ++ err)
        /\ started (snd (RunServer cfg h)) = started h)
  /\ (open_fault h dsn = None ->
      fst (RunServer cfg h) = grpc_result h
      /\ started (snd (RunServer cfg h))
         = (started h
            ++ [DBOpened dsn;
                GatewayLaunched (Config.GRPCPort cfg) (Config.HTTPPort cfg);
                GRPCServed (Config.GRPCPort cfg);
                DBClosed])%list).
Proof.
  intros Hg Hh dsn.
  assert (D : Sprintf "%s:%s@tcp(%s)/%s?%s"
                [ArgString (Config.DatastoreDBUser cfg);
                 ArgString (Config.DatastoreDBPassword cfg);
                 ArgString (Config.DatastoreDBHost cfg);
                 ArgString (Config.DatastoreDBSchema cfg);
                 ArgString "parseTime=true"] = dsn) by reflexivity.
  assert (I : onceInit (snd (Init (Config.LogLevel cfg) (Config.LogTimeFormat cfg)
                               (host_logger h))) = true).
  { unfold Init. destruct (onceInit (host_logger h)) eqn:O; cbn [snd]; [exact O|].
    destruct (negb _); reflexivity. }
  pose proof (Init_returns_nil (Config.LogLevel cfg) (Config.LogTimeFormat cfg)
                (host_logger h)) as N.
  unfold RunServer.
  destruct (Config.GRPCPort cfg) as [|c1 r1] eqn:G; [congruence|].
  destruct (Config.HTTPPort cfg) as [|c2 r2] eqn:P; [congruence|].
  cbn [String.length Nat.eqb].
  destruct (Init (Config.LogLevel cfg) (Config.LogTimeFormat cfg) (host_logger h))
    as [err lg]. cbn [fst snd] in *. subst err.
  cbn zeta. cbn [open_fault]. rewrite D.
  destruct (open_fault h dsn) as [e|]; cbn [fst snd host_logger started].
  - split; [exact I|]. split; [|discriminate].
    intros err E. injection E as <-. split; [|reflexivity].
    cbn. now rewrite append_empty.
  - split; [exact I|]. split; [discriminate|]. intros _. split; reflexivity.
Qed.

(** ** The further statements at sample inputs *)

(** ReadAll and Delete when the pool refuses the connection. *)
Lemma X1_no_connection_witness :
  ReadAll plain_text plain_scan_error {| ReadAllRequest.Api := "" |} pool_down_world
  = (Return None
       (Some {| code := Unknown;
                message := "Failed to connect to database -> dial tcp 127.0.0.1:3306: connect: connection refused" |}),
     pool_down_world)
  /\ Delete exact_precision {| DeleteRequest.Api := "v1"; DeleteRequest.Id := 1 |}
       pool_down_world
     = (Return None
          (Some {| code := Unknown;
                   message := "Failed to connect to database -> dial tcp 127.0.0.1:3306: connect: connection refused" |}),
        pool_down_world).
Proof.
  split.
  - destruct (X1_no_connection exact_precision plain_text plain_scan_error "" pool_down_world
                "dial tcp 127.0.0.1:3306: connect: connection refused")
      as (_ & _ & _ & _ & H); [left; reflexivity | reflexivity | exact H].
  - destruct (X1_no_connection exact_precision plain_text plain_scan_error "v1"
                pool_down_world "dial tcp 127.0.0.1:3306: connect: connection refused")
      as (_ & _ & _ & H & _); [right; reflexivity | reflexivity | exact (H 1)].
Defined.

(** Delete of the id 7, stored twice, and of the id 5, not stored. *)
Lemma X4_delete_effect_witness :
  table (snd (Delete exact_precision {| DeleteRequest.Api := "v1"; DeleteRequest.Id := 7 |}
                duplicate_world)) = []
  /\ table (snd (Delete exact_precision {| DeleteRequest.Api := "v1"; DeleteRequest.Id := 5 |}
                   one_row_world)) = [milk_row 1].
Proof.
  split.
  - destruct (X4_delete_effect exact_precision
                {| DeleteRequest.Api := "v1"; DeleteRequest.Id := 7 |} duplicate_world)
      as [H _].
    destruct (H {| DeleteResponse.Api := "v1"; DeleteResponse.Deleted := 2 |} None)
      as (E & _); [reflexivity|].
    rewrite E. reflexivity.
  - destruct (X4_delete_effect exact_precision
                {| DeleteRequest.Api := "v1"; DeleteRequest.Id := 5 |} one_row_world)
      as [_ H].
    destruct H as [E _]; [eexists; reflexivity | exact E].
Defined.

(** Delete of the id 1, then Read and Delete of it again. *)
Lemma X5_delete_then_gone_witness :
  fails_with NotFound
    (fst (Read plain_text plain_scan_error
            {| ReadRequest.Api := ""; ReadRequest.Id := 1 |}
            (snd (Delete exact_precision
                    {| DeleteRequest.Api := "v1"; DeleteRequest.Id := 1 |} one_row_world))))
  /\ fails_with NotFound
       (fst (Delete exact_precision
               {| DeleteRequest.Api := ""; DeleteRequest.Id := 1 |}
               (snd (Delete exact_precision
                       {| DeleteRequest.Api := "v1"; DeleteRequest.Id := 1 |}
                       one_row_world)))).
Proof.
  destruct (X5_delete_then_gone exact_precision plain_text plain_scan_error "v1" "" 1
              one_row_world
              (snd (Delete exact_precision
                      {| DeleteRequest.Api := "v1"; DeleteRequest.Id := 1 |} one_row_world))
              {| DeleteResponse.Api := "v1"; DeleteResponse.Deleted := 1 |} None)
    as (H1 & H2 & _).
  - reflexivity.
  - left. reflexivity.
  - reflexivity.
  - reflexivity.
  - split; [exact H1 | exact H2].
Defined.

(** Create of "buy milk" on a table holding the id 1. *)
Lemma X6_create_effect_witness :
  exists todo,
    Some buy_milk = Some todo
    /\ table (snd (Create whole_seconds plain_text
                     {| CreateRequest.Api := "v1"; CreateRequest.Todo := Some buy_milk |}
                     one_row_world))
       = [milk_row 1; created_row whole_seconds plain_text 2 todo]
    /\ has_id 2 (table one_row_world) = false.
Proof.
  apply (X6_create_effect whole_seconds plain_text
           {| CreateRequest.Api := "v1"; CreateRequest.Todo := Some buy_milk |}
           one_row_world
           {| CreateResponse.Api := "v1"; CreateResponse.Id := 2 |} None).
  reflexivity.
Defined.

(** ReadAll on the table holding the id 7 twice lists it twice. *)
Lemma X7_read_all_complete_witness :
  map Todo.Id
    [ {| Todo.Id := 7; Todo.Title := "buy milk"; Todo.Description := "2%";
         Todo.Reminder := Some new_year_2024 |};
      {| Todo.Id := 7; Todo.Title := "buy milk"; Todo.Description := "2%";
         Todo.Reminder := Some new_year_2024 |} ]
  = map row_id (table duplicate_world).
Proof.
  apply (X7_read_all_complete plain_text plain_scan_error
           {| ReadAllRequest.Api := "v1" |} duplicate_world
           {| ReadAllResponse.Api := "v1";
              ReadAllResponse.Todos :=
                [ {| Todo.Id := 7; Todo.Title := "buy milk"; Todo.Description := "2%";
                     Todo.Reminder := Some new_year_2024 |};
                  {| Todo.Id := 7; Todo.Title := "buy milk"; Todo.Description := "2%";
                     Todo.Reminder := Some new_year_2024 |} ] |} None).
  reflexivity.
Defined.

(** Update of the stored id 1, then Read of it. *)
Lemma X8_update_then_read_witness :
  (exists n,
     fst (Update whole_seconds plain_text
            {| UpdateRequest.Api := "v1"; UpdateRequest.Todo := Some oat_milk |} one_row_world)
     = Return (Some {| UpdateResponse.Api := "v1"; UpdateResponse.Updated := n |}) None
     /\ (n = 0 \/ n = 1))
  /\ fst (Read plain_text plain_scan_error
            {| ReadRequest.Api := ""; ReadRequest.Id := 1 |}
            (snd (Update whole_seconds plain_text
                    {| UpdateRequest.Api := "v1"; UpdateRequest.Todo := Some oat_milk |}
                    one_row_world)))
     = Return (Some {| ReadResponse.Api := "v1"; ReadResponse.Todo := Some oat_milk |}) None.
Proof.
  apply (X8_update_then_read whole_seconds plain_text plain_scan_error "v1" "" oat_milk
           one_row_world
           (snd (Update whole_seconds plain_text
                   {| UpdateRequest.Api := "v1"; UpdateRequest.Todo := Some oat_milk |}
                   one_row_world))
           (milk_row 1)).
  - right. reflexivity.
  - left. reflexivity.
  - reflexivity.
  - reflexivity.
  - reflexivity.
  - reflexivity.
  - reflexivity.
  - reflexivity.
Defined.

(** Create and Update without a task. *)
Lemma X9_nil_todo_panics_witness :
  Create exact_precision plain_text
    {| CreateRequest.Api := "v1"; CreateRequest.Todo := None |} one_row_world
  = (Panic "runtime error: invalid memory address or nil pointer dereference",
     Conn_Close (log ConnOpened one_row_world))
  /\ Update exact_precision plain_text
       {| UpdateRequest.Api := "v1"; UpdateRequest.Todo := None |} one_row_world
     = (Panic "runtime error: invalid memory address or nil pointer dereference",
        Conn_Close (log ConnOpened one_row_world)).
Proof.
  apply (X9_nil_todo_panics exact_precision plain_text "v1" one_row_world).
  - right. reflexivity.
  - reflexivity.
Defined.

(** Read of the id 2, whose only row has a NULL reminder. *)
Lemma X10_read_null_column_witness :
  fst (Read plain_text plain_scan_error
         {| ReadRequest.Api := "v1"; ReadRequest.Id := 2 |} null_reminder_world)
  = Return None
      (Some {| code := Unknown; message := "Found multiple Todo rows with ID='2'" |}).
Proof.
  apply (X10_read_null_column plain_text plain_scan_error "v1" 2 null_reminder_world
           {| row_id := 2; row_title := Some "call home";
              row_description := Some ""; row_reminder := None |} []).
  - right. reflexivity.
  - reflexivity.
  - reflexivity.
  - right. right. reflexivity.
Defined.

(** Create when the driver inserts the row and then fails to report its id. *)
Lemma X11_error_after_write_witness :
  fails_with Unknown
    (fst (Create exact_precision plain_text
            {| CreateRequest.Api := "v1"; CreateRequest.Todo := Some buy_milk |}
            result_failing_world))
  /\ table (snd (Create exact_precision plain_text
                   {| CreateRequest.Api := "v1"; CreateRequest.Todo := Some buy_milk |}
                   result_failing_world))
     = [milk_row 1; milk_row 2].
Proof.
  destruct (X11_error_after_write exact_precision plain_text "v1" buy_milk
              result_failing_world "driver: bad connection")
    as ([H1 H2] & _).
  - right. reflexivity.
  - reflexivity.
  - reflexivity.
  - reflexivity.
  - reflexivity.
  - reflexivity.
  - split; [exact H1|]. rewrite H2. reflexivity.
Defined.

(** Two Creates, an Update and a Delete from the empty table, the second
    Create while the pool is down. *)
Lemma X12_unique_ids_invariant_witness :
  unique_ids
    (table (serve_all whole_seconds plain_text plain_scan_error
              [ (no_faults,
                 CallCreate {| CreateRequest.Api := "v1";
                               CreateRequest.Todo := Some buy_milk |});
                (faults pool_down_world,
                 CallCreate {| CreateRequest.Api := "v1";
                               CreateRequest.Todo := Some buy_milk |});
                (no_faults,
                 CallUpdate {| UpdateRequest.Api := "";
                               UpdateRequest.Todo := Some oat_milk |});
                (no_faults,
                 CallDelete {| DeleteRequest.Api := ""; DeleteRequest.Id := 3 |}) ]
              empty_world))
  = true.
Proof.
  apply (X12_unique_ids_invariant whole_seconds plain_text plain_scan_error).
  reflexivity.
Defined.

(** The logger at level Debug: a warning goes to both streams, an error to
    neither. *)
Lemma X14_logger_levels_witness :
  exists l,
    Log (snd (Init (-1) "" fresh_logger)) = Some l
    /\ Stdout (Logger_write l {| entry_level := WarnLevel;
                                 entry_message := "Shutting down gRPC server..." |}
                 fresh_logger)
       = [{| entry_level := WarnLevel; entry_message := "Shutting down gRPC server..." |}]
    /\ Logger_write l {| entry_level := ErrorLevel; entry_message := "failed" |} fresh_logger
       = fresh_logger.
Proof.
  destruct (X14_logger_levels (-1) "" fresh_logger fresh_logger
              {| entry_level := WarnLevel;
                 entry_message := "Shutting down gRPC server..." |} eq_refl)
    as (l & Hl & Hw & _).
  destruct (X14_logger_levels (-1) "" fresh_logger fresh_logger
              {| entry_level := ErrorLevel; entry_message := "failed" |} eq_refl)
    as (l' & Hl' & _ & He).
  rewrite Hl in Hl'. injection Hl' as <-.
  exists l. split; [exact Hl|]. split.
  - destruct Hw as [Hw _]; [cbn; unfold to_Level, WarnLevel, ErrorLevel; cbn; lia|].
    exact Hw.
  - apply He. right. cbn. unfold ErrorLevel. lia.
Defined.

(** The server started without a gRPC port, and without an HTTP port. *)
Lemma X15_empty_ports_witness :
  RunServer {| Config.GRPCPort := ""; Config.HTTPPort := "8080";
               Config.DatastoreDBHost := ""; Config.DatastoreDBUser := "";
               Config.DatastoreDBPassword := ""; Config.DatastoreDBSchema := "";
               Config.LogLevel := 0; Config.LogTimeFormat := "" |} quiet_host
  = (Some "invalid TCP port for gRPC server: ''", quiet_host)
  /\ RunServer {| Config.GRPCPort := "9090"; Config.HTTPPort := "";
                  Config.DatastoreDBHost := ""; Config.DatastoreDBUser := "";
                  Config.DatastoreDBPassword := ""; Config.DatastoreDBSchema := "";
                  Config.LogLevel := 0; Config.LogTimeFormat := "" |} quiet_host
     = (Some "invalid TCP port for HTTP gateway: ''", quiet_host).
Proof.
  split.
  - apply X15_empty_ports. reflexivity.
  - apply X15_empty_ports; [discriminate | reflexivity].
Defined.

(** The server started with the flags of the Makefile. *)
Lemma X16_startup_witness :
  fst (RunServer runapi_config quiet_host) = None
  /\ started (snd (RunServer runapi_config quiet_host))
     = [DBOpened "root:password@tcp(localhost:3306)/todo?parseTime=true";
        GatewayLaunched "9090" "8080"; GRPCServed "9090"; DBClosed].
Proof.
  destruct (X16_startup runapi_config quiet_host) as (_ & _ & H);
    [discriminate | discriminate |].
  apply H. reflexivity.
Defined.

(** Read and ReadAll when the cursor breaks after the first row. *)
Lemma X17_broken_cursor_witness :
  fst (Read plain_text plain_scan_error
         {| ReadRequest.Api := "v1"; ReadRequest.Id := 1 |} broken_cursor_world)
  = Return (Some {| ReadResponse.Api := "v1";
                    ReadResponse.Todo :=
                      Some {| Todo.Id := 1; Todo.Title := "buy milk";
                              Todo.Description := "2%";
                              Todo.Reminder := Some new_year_2024 |} |}) None
  /\ fails_with Unknown
       (fst (ReadAll plain_text plain_scan_error {| ReadAllRequest.Api := "v1" |}
               broken_cursor_world)).
Proof.
  destruct (X17_broken_cursor plain_text plain_scan_error "v1" 1 broken_cursor_world 1%nat
              "unexpected EOF") as (_ & H & U).
  - right. reflexivity.
  - reflexivity.
  - reflexivity.
  - reflexivity.
  - split; [|exact U].
    apply (H (milk_row 1) []
             {| Todo.Id := 1; Todo.Title := "buy milk"; Todo.Description := "2%";
                Todo.Reminder := Some new_year_2024 |});
      [lia | reflexivity | reflexivity].
Defined.
